(** * subscription_bot.py: a membership-gated delivery bot

    A shallow embedding of [load_config] and of the [/get] handler
    [get_material] of [src/subscription_bot.py], and the properties of the
    delivery flow proved about them.

    Python strings are modelled as [string] (the UTF-8 bytes of the text),
    [None]-able values as [option], the process environment as a finite map
    from variable names to values, and the coroutine [get_material] as a
    computation in a small exception monad that records every transport call
    and log record in a trace. *)

From Stdlib Require Import ZArith Ascii String.
From stdpp Require Import base strings list gmap.

Local Open Scope string_scope.
Local Open Scope list_scope.
Local Open Scope Z_scope.

(** ** Python values *)

(** The exceptions the program meets.  Every one is a subclass of Python's
    [Exception], so that [except Exception] catches each of them
    ([BaseException]-only signals such as task cancellation are not
    modelled). *)
Inductive exn : Type :=
  | RuntimeError (msg : string)
  | OSError (msg : string)
  | TelegramError (msg : string).

(** The result of running a Python expression: a value, or a raised
    exception. *)
Inductive result (A : Type) : Type :=
  | Ok (a : A)
  | Raise (e : exn).
Arguments Ok {A} a.
Arguments Raise {A} e.

Definition is_ok {A} (r : result A) : bool :=
  match r with Ok _ => true | Raise _ => false end.

#[global] Instance result_ret : MRet result := λ A a, Ok a.
#[global] Instance result_bind : MBind result := λ A B f r,
  match r with Ok a => f a | Raise e => Raise e end.

(** Truthiness of an optional string: [None] and [""] are falsy. *)
Definition truthy_str (s : string) : bool :=
  match s with EmptyString => false | String _ _ => true end.

Definition truthy (v : option string) : bool :=
  match v with None => false | Some s => truthy_str s end.

(** [v or d] for an optional string [v]. *)
Definition py_or (v : option string) (d : string) : string :=
  match v with
  | Some s => if truthy_str s then s else d
  | None => d
  end.

(** [v or None]. *)
Definition or_None (v : option string) : option string :=
  match v with
  | Some s => if truthy_str s then Some s else None
  | None => None
  end.

(** A [pathlib.Path], kept as its textual form. *)
Record path : Type := Path { path_str : string }.

(** [Path.name]: the final component, the text after the last [/] (pathlib
    keeps a path without a trailing [/]). *)
Fixpoint last_component (acc s : string) : string :=
  match s with
  | EmptyString => acc
  | String c s' =>
      if Ascii.eqb c "/"%char then last_component EmptyString s'
      else last_component (acc +:+ String c EmptyString) s'
  end.

Definition name (p : path) : string := last_component EmptyString (path_str p).

(** The value stored under ["target_chat_id"]: an integer when the setting
    parses as one, the string itself (["@channel_username"]) otherwise. *)
Inductive chat_ref : Type :=
  | ChatInt (id : Z)
  | ChatStr (username : string).

(** ** Configuration *)

(** The configuration dictionary as the handler reads it, with the types
    its annotations give: [material_text: Optional[str]],
    [material_file_path: Optional[Path]], [channel_invite_link:
    Optional[str]]. *)
Record Config : Type := {
  token : string;
  target_chat_id : chat_ref;
  material_text : option string;
  material_file_path : option path;
  channel_invite_link : option string;
}.

Definition msg_token : string :=
  "TELEGRAM_BOT_TOKEN must be set as an environment variable or in .env".
Definition msg_target : string :=
  "TARGET_CHAT_ID must be set as an environment variable or in .env".
Definition msg_material : string :=
  "Either MATERIAL_TEXT or MATERIAL_FILE_PATH must be set to deliver material".

Section LoadConfig.

(** Python's [int(s)]: [None] stands for [ValueError]. *)
Variable py_int : string → option Z.

(** [Path(s).expanduser()]: pathlib raises [RuntimeError] when the path
    starts with [~] and the home directory cannot be resolved. *)
Variable expanduser : string → result path.

(** [load_dotenv()] adds the variables of the [.env] file ([dotenv], empty
    when there is no file) to [os.environ] without overriding the ones
    already set; [os.getenv] is then a lookup. *)
Definition load_dotenv (environ dotenv : gmap string string) : gmap string string :=
  environ ∪ dotenv.

(** A [MATERIAL_FILE_PATH] that is unset or empty is not normalized: the
    dictionary keeps [None] or [""] for it, both falsy in the only test
    the handler makes of it, and the record keeps [None]. *)
Definition load_config (environ dotenv : gmap string string) : result Config :=
  let env := load_dotenv environ dotenv in
  let c_token := env !! "TELEGRAM_BOT_TOKEN" in
  let c_target := env !! "TARGET_CHAT_ID" in
  let c_text := env !! "MATERIAL_TEXT" in
  let c_file := env !! "MATERIAL_FILE_PATH" in
  let c_link := env !! "CHANNEL_INVITE_LINK" in
  if negb (truthy c_token) then Raise (RuntimeError msg_token)
  else if negb (truthy c_target) then Raise (RuntimeError msg_target)
  else if negb (truthy c_text || truthy c_file) then Raise (RuntimeError msg_material)
  else
    let target :=
      match py_int (default "" c_target) with
      | Some z => ChatInt z
      | None => ChatStr (default "" c_target)
      end in
    file ← (if truthy c_file
            then p ← expanduser (default "" c_file); mret (Some p)
            else mret None);
    mret {| token := default "" c_token;
            target_chat_id := target;
            material_text := c_text;
            material_file_path := file;
            channel_invite_link := c_link |}.

End LoadConfig.

(** ** The transport and the trace of a request *)

(** [telegram.constants.ParseMode]. *)
Inductive ParseMode : Type := HTML | MARKDOWN | MARKDOWN_V2.

(** [telegram.constants.ChatMemberStatus] of python-telegram-bot v20+, a
    string-valued enumeration: its members compare equal to the status
    strings of the Bot API.  It has no member [CREATOR]: the attribute
    lookup finds nothing and [hasattr(ChatMemberStatus, "CREATOR")] is
    false. *)
Module ChatMemberStatus.
Definition ADMINISTRATOR : string := "administrator".
Definition BANNED : string := "kicked".
Definition LEFT : string := "left".
Definition MEMBER : string := "member".
Definition OWNER : string := "creator".
Definition RESTRICTED : string := "restricted".
Definition CREATOR : option string := None.
Definition hasattr_CREATOR : bool :=
  match CREATOR with Some _ => true | None => false end.
End ChatMemberStatus.

(** The two send operations of the bot, with the keyword arguments the
    handler passes. *)
Inductive send_call : Type :=
  | send_document (chat_id : Z) (document : path) (filename : string)
                  (caption : option string)
  | send_message (chat_id : Z) (text : string) (parse_mode : option ParseMode).

Inductive log_record : Type :=
  | LogDebug (user_id : Z) (status : string) (chat : chat_ref)
  | LogException (e : exn)
  | LogWarning (user_id : Z) (e : exn).

(** What a request leaves behind, in order: the send operations invoked,
    each with what the transport answered, and the log records. *)
Inductive event : Type :=
  | Sent (c : send_call) (r : result unit)
  | Logged (l : log_record).

(** Everything outside the handler that a request depends on: the answer
    of the membership query (the status, or an exception), of
    [Path.exists()] (which re-raises the errors of [stat] that do not mean
    a missing file), of [Path.open("rb")], and of the sends.  A send is
    answered according to its position among the sends of the request and
    to its arguments, so that the same message may be rejected once and
    accepted later. *)
Record world : Type := {
  get_chat_member : chat_ref → Z → result string;
  path_exists : path → result bool;
  path_open : path → result unit;
  transport_send : nat → send_call → result unit;
}.

(** Computations that may raise and that extend the trace. *)
Definition io (A : Type) : Type := list event → result A * list event.

#[global] Instance io_ret : MRet io := λ A a tr, (Ok a, tr).
#[global] Instance io_bind : MBind io := λ A B f m tr,
  match m tr with
  | (Ok a, tr') => f a tr'
  | (Raise e, tr') => (Raise e, tr')
  end.
#[global] Instance io_throw : MThrow exn io := λ A e tr, (Raise e, tr).

(** [try: body / except Exception as e: handler e]. *)
Definition try_except {A} (body : io A) (handler : exn → io A) : io A := λ tr,
  match body tr with
  | (Ok a, tr') => (Ok a, tr')
  | (Raise e, tr') => handler e tr'
  end.

(** Lifts the answer of the world into a computation. *)
Definition lift {A} (r : result A) : io A := λ tr, (r, tr).

Definition log (l : log_record) : io unit := λ tr, (Ok tt, tr ++ [Logged l]).

Definition is_send (ev : event) : bool :=
  match ev with Sent _ _ => true | Logged _ => false end.

(** The number of send operations invoked so far. *)
Definition sends_so_far (tr : list event) : nat := length (filter is_send tr).

Definition send (w : world) (c : send_call) : io unit := λ tr,
  let r := transport_send w (sends_so_far tr) c in
  (r, tr ++ [Sent c r]).

(** ** The [/get] handler *)

Definition newline : string := String (ascii_of_nat 10) EmptyString.

Definition text_file_error : string :=
  "Произошла ошибка при отправке файла. Попробуйте позже.".
Definition text_default_material : string :=
  "Спасибо за подписку! Вот ваш материал.".
Definition text_not_subscribed : string :=
  "Чтобы получить материал, пожалуйста, подпишитесь на канал.".
Definition text_check_failed : string :=
  "Не удалось проверить вашу подписку. Возможно, вы не подписаны на канал.".

(** [reply = base; if channel_invite_link: reply += f"\n{channel_invite_link}"]. *)
Definition with_invite_link (base : string) (channel_invite_link : option string) : string :=
  match channel_invite_link with
  | Some link => if truthy_str link then base +:+ newline +:+ link else base
  | None => base
  end.

(** The list the status is looked up in; its last entry is [None] because
    [ChatMemberStatus] has no [CREATOR]. *)
Definition subscribed_statuses : list (option string) :=
  [ Some ChatMemberStatus.MEMBER;
    Some ChatMemberStatus.ADMINISTRATOR;
    Some ChatMemberStatus.OWNER;
    if ChatMemberStatus.hasattr_CREATOR then ChatMemberStatus.CREATOR else None ].

(** [status in [...]]. *)
Definition is_subscribed (status : string) : bool :=
  bool_decide (Some status ∈ subscribed_statuses).

(** The reply of the not-subscribed branch and the reply of the outer
    handler. *)
Definition prompt_reply (user_id : Z) (config : Config) : send_call :=
  send_message user_id
    (with_invite_link text_not_subscribed (channel_invite_link config)) (Some HTML).

Definition check_failed_reply (user_id : Z) (config : Config) : send_call :=
  send_message user_id
    (with_invite_link text_check_failed (channel_invite_link config)) None.

Section Handler.

Variable w : world.

(** The body of the inner [try]: open the file and send it. *)
Definition send_file (user_id : Z) (p : path) (material_text : option string) : io unit :=
  lift (path_open w p);;
  send w (send_document user_id p (name p) (or_None material_text)).

(** The file branch, up to its [return]. *)
Definition deliver_file (user_id : Z) (p : path) (material_text : option string) : io unit :=
  try_except (send_file user_id p material_text)
    (λ e, log (LogException e);;
          send w (send_message user_id text_file_error None)).

(** The text branch. *)
Definition deliver_text (user_id : Z) (material_text : option string) : io unit :=
  send w (send_message user_id (py_or material_text text_default_material) None).

(** The body of the outer [try]. *)
Definition check_and_deliver (user_id : Z) (config : Config) : io unit :=
  let target := target_chat_id config in
  status ← lift (get_chat_member w target user_id);
  log (LogDebug user_id status target);;
  if is_subscribed status then
    match material_file_path config with
    | Some p =>
        found ← lift (path_exists w p);
        if found : bool then deliver_file user_id p (material_text config)
        else deliver_text user_id (material_text config)
    | None => deliver_text user_id (material_text config)
    end
  else send w (prompt_reply user_id config).

Definition get_material (user_id : Z) (config : Config) : io unit :=
  try_except (check_and_deliver user_id config)
    (λ exc, log (LogWarning user_id exc);;
            send w (check_failed_reply user_id config)).

(** One request, from an empty trace. *)
Definition run (user_id : Z) (config : Config) : result unit * list event :=
  get_material user_id config [].

End Handler.

(** ** Observations on a trace *)

(** The handler returns [None]; what a request did is read off its trace.
    A request whose only accepted send carries the material has sent the
    material, one whose accepted send is the prompt of the not-subscribed
    branch has prompted, and one whose accepted send is the reply of the
    outer handler has reported an error. *)

(** The send operations a request invoked, in order. *)
Definition calls (tr : list event) : list send_call :=
  omap (λ ev, match ev with Sent c _ => Some c | Logged _ => None end) tr.

(** The send operations the transport accepted: the replies the user
    received. *)
Definition delivered (tr : list event) : list send_call :=
  omap (λ ev, match ev with Sent c (Ok _) => Some c | _ => None end) tr.

(** The exceptions logged as warnings. *)
Definition warnings (tr : list event) : list exn :=
  omap (λ ev, match ev with Logged (LogWarning _ e) => Some e | _ => None end) tr.

(** The statuses the specification calls authorized: owner, administrator
    and member. *)
Definition authorized : list string :=
  [ ChatMemberStatus.OWNER; ChatMemberStatus.ADMINISTRATOR; ChatMemberStatus.MEMBER ].

(** The material as a send operation: the configured file with the text as
    its caption, or the text (the placeholder when there is none). *)
Definition is_material_send (user_id : Z) (config : Config) (c : send_call) : Prop :=
  match c with
  | send_document chat_id document filename caption =>
      chat_id = user_id ∧ material_file_path config = Some document ∧
      filename = name document ∧ caption = or_None (material_text config)
  | send_message chat_id text parse_mode =>
      chat_id = user_id ∧ parse_mode = None ∧
      text = py_or (material_text config) text_default_material
  end.

(** [sub in s] on strings. *)
Definition contains (sub s : string) : Prop :=
  ∃ pre post, s = pre +:+ sub +:+ post.

(** The configuration with another material. *)
Definition with_material (config : Config) (text : option string)
    (file : option path) : Config :=
  {| token := token config;
     target_chat_id := target_chat_id config;
     material_text := text;
     material_file_path := file;
     channel_invite_link := channel_invite_link config |}.

(** The outcomes in which the user is not authorized: a status outside the
    authorized ones, or a membership query that raises. *)
Definition not_authorized_outcome (answer : result string) : Prop :=
  match answer with
  | Ok status => status ∉ authorized
  | Raise _ => True
  end.

(** The chat a send operation is addressed to. *)
Definition recipient (c : send_call) : Z :=
  match c with
  | send_document chat_id _ _ _ => chat_id
  | send_message chat_id _ _ => chat_id
  end.

Definition is_document (c : send_call) : bool :=
  match c with
  | send_document _ _ _ _ => true
  | send_message _ _ _ => false
  end.

(** Two worlds that differ at most in their file system. *)
Definition same_transport (w w' : world) : Prop :=
  (∀ chat user_id, get_chat_member w chat user_id = get_chat_member w' chat user_id) ∧
  (∀ n c, transport_send w n c = transport_send w' n c).



(** ** The routes of a request *)

(** A request whose try body is the debug record and one send. *)
Definition single_send (w : world) (user_id : Z) (config : Config)
    (status : string) (c : send_call) : Prop :=
  check_and_deliver w user_id config [] =
    send w c [Logged (LogDebug user_id status (target_chat_id config))].

(** The text branch is taken: no file is configured, or the file is not
    there. *)
Definition text_route (w : world) (config : Config) : Prop :=
  match material_file_path config with
  | Some p => path_exists w p = Ok false
  | None => True
  end.

(** The file branch is taken, with the file [p]. *)
Definition file_route (w : world) (config : Config) (p : path) : Prop :=
  material_file_path config = Some p ∧ path_exists w p = Ok true.

(** ** Concrete requests *)

Module Examples.

(** A world that answers every membership query, file check and open the
    same way, and the [n]-th send of a request with the [n]-th entry of
    [answers] (accepting the sends beyond the list). *)
Definition world_of (status : result string) (found : result bool)
    (opened : result unit) (answers : list (result unit)) : world :=
  {| get_chat_member := λ _ _, status;
     path_exists := λ _, found;
     path_open := λ _, opened;
     transport_send := λ n _, default (Ok tt) (answers !! n) |}.

Definition forbidden : exn :=
  TelegramError "Forbidden: bot can't initiate conversation with a user".
Definition timed_out : exn := TelegramError "Timed out".
Definition user_not_found : exn := TelegramError "User not found".
Definition permission_denied : exn :=
  OSError "[Errno 13] Permission denied: '/srv/bot/material.pdf'".

Definition material_pdf : path := Path "/srv/bot/material.pdf".

(** The configuration of the example scenario of the specification. *)
Definition config_text : Config :=
  {| token := "123456:ABCDEF";
     target_chat_id := ChatInt (-100123);
     material_text := Some "Thanks!";
     material_file_path := None;
     channel_invite_link := Some "https://t.me/x" |}.

Definition config_file : Config :=
  {| token := "123456:ABCDEF";
     target_chat_id := ChatInt (-100123);
     material_text := Some "Thanks!";
     material_file_path := Some material_pdf;
     channel_invite_link := Some "https://t.me/x" |}.

Definition config_bare : Config :=
  {| token := "123456:ABCDEF";
     target_chat_id := ChatStr "@your_channel";
     material_text := None;
     material_file_path := Some material_pdf;
     channel_invite_link := None |}.

(** A user who left the channel, and the same user when the transport
    rejects whatever the bot sends to them. *)
Definition world_left : world := world_of (Ok "left") (Ok true) (Ok tt) [].
Definition world_left_blocked : world :=
  world_of (Ok "left") (Ok true) (Ok tt) [Raise forbidden; Raise forbidden].

(** Subscribers whose file is there. *)
Definition world_member : world := world_of (Ok "member") (Ok true) (Ok tt) [].
Definition world_admin : world :=
  world_of (Ok "administrator") (Ok true) (Ok tt) [].
Definition world_member_document_rejected : world :=
  world_of (Ok "member") (Ok true) (Ok tt) [Raise timed_out].

Definition world_owner : world := world_of (Ok "creator") (Ok true) (Ok tt) [].
Definition world_member_unreadable : world :=
  world_of (Ok "member") (Ok true) (Raise permission_denied) [].

(** A member whose file is gone. *)
Definition world_member_no_file : world :=
  world_of (Ok "member") (Ok false) (Ok tt) [].
Definition world_member_no_file_blocked : world :=
  world_of (Ok "member") (Ok false) (Ok tt) [Raise timed_out; Raise forbidden].

(** A banned user whom the transport does not reach, a member whose text
    is rejected once, an administrator whose document is rejected. *)
Definition world_banned_blocked : world :=
  world_of (Ok "kicked") (Ok true) (Ok tt) [Raise forbidden; Raise forbidden].
Definition world_member_text_rejected : world :=
  world_of (Ok "member") (Ok true) (Ok tt) [Raise timed_out].
Definition world_admin_document_rejected : world :=
  world_of (Ok "administrator") (Ok true) (Ok tt) [Raise timed_out].

(** The user who left, on a system where the file cannot even be
    checked. *)
Definition world_left_no_disk : world :=
  world_of (Ok "left") (Raise permission_denied) (Raise permission_denied) [].

(** A member whose file cannot be opened and whom the notice does not
    reach. *)
Definition world_member_unreadable_blocked : world :=
  world_of (Ok "member") (Ok true) (Raise permission_denied) [Raise timed_out].

(** The membership query raises. *)
Definition world_query_failed : world :=
  world_of (Raise user_not_found) (Ok true) (Ok tt) [].
Definition world_query_failed_blocked : world :=
  world_of (Raise user_not_found) (Ok true) (Ok tt) [Raise forbidden].

End Examples.

(** ** A runtime for the examples *)

Module Runtime.


(** [int(s)] on plain decimal literals, an optional sign and ASCII digits;
    everything else is a [ValueError] here. *)
Fixpoint digits (acc : Z) (s : string) : option Z :=
  match s with
  | EmptyString => Some acc
  | String c s' =>
      let n := Z.of_nat (nat_of_ascii c) in
      if (48 <=? n) && (n <=? 57) then digits (10 * acc + (n - 48)) s' else None
  end.

Definition int_decimal (s : string) : option Z :=
  match s with
  | EmptyString => None
  | String c s' =>
      if Ascii.eqb c "-"%char then
        if truthy_str s' then Z.opp <$> digits 0 s' else None
      else if Ascii.eqb c "+"%char then
        if truthy_str s' then digits 0 s' else None
      else digits 0 s
  end.

(** Splits [user/rest] before its first [/]. *)
Fixpoint split_user (s : string) : string * string :=
  match s with
  | EmptyString => (EmptyString, EmptyString)
  | String c s' =>
      if Ascii.eqb c "/"%char then (EmptyString, s)
      else let (user, rest) := split_user s' in (String c user, rest)
  end.

(** [Path(s).expanduser()] on a system whose users have the home
    directories [homes] (the entry of [""] is the home of the current
    user): a leading [~user] is replaced by the home of the user, and
    pathlib raises when there is none. *)
Definition expanduser_with (homes : gmap string string) (s : string) : result path :=
  match s with
  | EmptyString => Ok (Path s)
  | String c s' =>
      if Ascii.eqb c "~"%char then
        let (user, rest) := split_user s' in
        match homes !! user with
        | Some home => Ok (Path (home +:+ rest))
        | None => Raise (RuntimeError "Could not determine home directory.")
        end
      else Ok (Path s)
  end.

Definition homes : gmap string string := {[ "" := "/home/bot" ]}.





(** The [.env] file of the module docstring. *)
Definition dotenv_example : gmap string string :=
  {[ "TELEGRAM_BOT_TOKEN" := "123456:ABCDEF";
     "TARGET_CHAT_ID" := "-1001234567890";
     "MATERIAL_TEXT" := "Thanks for subscribing! Here is your material";
     "CHANNEL_INVITE_LINK" := "https://t.me/your_channel" ]}.

(** An environment whose material file is in the home directory of a
    user that the system does not have. *)
Definition environ_ghost : gmap string string :=
  {[ "TELEGRAM_BOT_TOKEN" := "123456:ABCDEF";
     "TARGET_CHAT_ID" := "-1001234567890";
     "MATERIAL_TEXT" := "Thanks!";
     "MATERIAL_FILE_PATH" := "~ghost/material.pdf" ]}.

End Runtime.

(** ** The steps of a request *)

Lemma is_subscribed_authorized (status : string) :
  is_subscribed status = true ↔ status ∈ authorized.
Proof.
  unfold is_subscribed, subscribed_statuses, authorized.
  rewrite bool_decide_eq_true, !elem_of_cons, !elem_of_nil.
  unfold ChatMemberStatus.hasattr_CREATOR, ChatMemberStatus.CREATOR. split.
  - intros [H | [H | [H | [H | []]]]]; try discriminate H;
      injection H as ->; auto.
  - intros [-> | [-> | [-> | []]]]; auto.
Qed.

Lemma not_subscribed_unauthorized (status : string) :
  is_subscribed status = false ↔ status ∉ authorized.
Proof.
  rewrite <- is_subscribed_authorized.
  destruct (is_subscribed status); split; congruence.
Qed.

Section Steps.

Variable w : world.
Variables (user_id : Z) (config : Config).

Let target := target_chat_id config.
Let fallback := check_failed_reply user_id config.
Let text_message :=
  send_message user_id (py_or (material_text config) text_default_material) None.
Let error_notice := send_message user_id text_file_error None.
Let debug (status : string) := Logged (LogDebug user_id status target).
Let warning (e : exn) := Logged (LogWarning user_id e).

(** Unfolds the monad. *)
Ltac exec :=
  unfold run, get_material, check_and_deliver, deliver_file, deliver_text,
    send_file, try_except, lift, log, send, mbind, io_bind, mret, io_ret,
    sends_so_far;
  simpl.

(** The outer handler: a warning, then one attempt at the reply. *)
Lemma run_outer_handler (e : exn) (tr : list event) :
  check_and_deliver w user_id config [] = (Raise e, tr) →
  run w user_id config =
    (transport_send w (sends_so_far tr) fallback,
     tr ++ [warning e; Sent fallback (transport_send w (sends_so_far tr) fallback)]).
Proof.
  intros Hbody. unfold run, get_material, try_except. rewrite Hbody.
  unfold mbind, io_bind, log, send. simpl.
  unfold sends_so_far. rewrite filter_app. simpl.
  rewrite app_nil_r, <- app_assoc. reflexivity.
Qed.

(** The membership query raises. *)
Lemma run_query_failed (e : exn) :
  get_chat_member w target user_id = Raise e →
  run w user_id config =
    (transport_send w 0 fallback,
     [warning e; Sent fallback (transport_send w 0 fallback)]).
Proof. intros Hq. exec. fold target. rewrite Hq. reflexivity. Qed.

Lemma run_single_send_ok (status : string) (c : send_call) :
  single_send w user_id config status c →
  transport_send w 0 c = Ok tt →
  run w user_id config = (Ok tt, [debug status; Sent c (Ok tt)]).
Proof.
  unfold single_send. intros Hbody Hs.
  unfold run, get_material, try_except. rewrite Hbody.
  unfold send, sends_so_far. simpl. rewrite Hs. reflexivity.
Qed.

Lemma run_single_send_rejected (status : string) (c : send_call) (e : exn) :
  single_send w user_id config status c →
  transport_send w 0 c = Raise e →
  run w user_id config =
    (transport_send w 1 fallback,
     [debug status; Sent c (Raise e); warning e;
      Sent fallback (transport_send w 1 fallback)]).
Proof.
  unfold single_send. intros Hbody Hs.
  rewrite (run_outer_handler e [debug status; Sent c (Raise e)]).
  - reflexivity.
  - rewrite Hbody. unfold send, sends_so_far. simpl. rewrite Hs. reflexivity.
Qed.

(** The not-subscribed branch sends the prompt. *)
Lemma not_subscribed_single_send (status : string) :
  get_chat_member w target user_id = Ok status →
  is_subscribed status = false →
  single_send w user_id config status (prompt_reply user_id config).
Proof.
  intros Hq Hs. unfold single_send. exec. fold target.
  rewrite Hq, Hs. reflexivity.
Qed.

Lemma text_single_send (status : string) :
  get_chat_member w target user_id = Ok status →
  is_subscribed status = true →
  text_route w config →
  single_send w user_id config status text_message.
Proof.
  intros Hq Hs Hr. unfold single_send, text_route in *. exec. fold target.
  rewrite Hq, Hs. destruct (material_file_path config) as [p|].
  - rewrite Hr. reflexivity.
  - reflexivity.
Qed.

(** The check of the file raises. *)
Lemma run_exists_failed (status : string) (p : path) (e : exn) :
  get_chat_member w target user_id = Ok status →
  is_subscribed status = true →
  material_file_path config = Some p →
  path_exists w p = Raise e →
  run w user_id config =
    (transport_send w 0 fallback,
     [debug status; warning e; Sent fallback (transport_send w 0 fallback)]).
Proof.
  intros Hq Hs Hf He.
  rewrite (run_outer_handler e [debug status]); [reflexivity|].
  exec. fold target. rewrite Hq, Hs, Hf, He. reflexivity.
Qed.

Let document (p : path) :=
  send_document user_id p (name p) (or_None (material_text config)).

Lemma run_file_sent (status : string) (p : path) :
  get_chat_member w target user_id = Ok status →
  is_subscribed status = true →
  file_route w config p →
  path_open w p = Ok tt →
  transport_send w 0 (document p) = Ok tt →
  run w user_id config = (Ok tt, [debug status; Sent (document p) (Ok tt)]).
Proof.
  intros Hq Hs [Hf He] Ho Hd. exec. fold target.
  rewrite Hq, Hs, Hf, He, Ho. simpl. fold (document p). rewrite Hd.
  reflexivity.
Qed.

(** Opening the file raises: the inner handler answers with the notice. *)
Lemma file_open_failed (status : string) (p : path) (e : exn) :
  get_chat_member w target user_id = Ok status →
  is_subscribed status = true →
  file_route w config p →
  path_open w p = Raise e →
  check_and_deliver w user_id config [] =
    (transport_send w 0 error_notice,
     [debug status; Logged (LogException e);
      Sent error_notice (transport_send w 0 error_notice)]).
Proof.
  intros Hq Hs [Hf He] Ho. exec. fold target.
  rewrite Hq, Hs, Hf, He, Ho. reflexivity.
Qed.

(** The transport rejects the document: the same handler. *)
Lemma file_send_failed (status : string) (p : path) (e : exn) :
  get_chat_member w target user_id = Ok status →
  is_subscribed status = true →
  file_route w config p →
  path_open w p = Ok tt →
  transport_send w 0 (document p) = Raise e →
  check_and_deliver w user_id config [] =
    (transport_send w 1 error_notice,
     [debug status; Sent (document p) (Raise e); Logged (LogException e);
      Sent error_notice (transport_send w 1 error_notice)]).
Proof.
  intros Hq Hs [Hf He] Ho Hd. exec. fold target.
  rewrite Hq, Hs, Hf, He, Ho. simpl. fold (document p). rewrite Hd.
  reflexivity.
Qed.

(** A try body that ends well is the whole request. *)
Lemma run_body_ok (tr : list event) :
  check_and_deliver w user_id config [] = (Ok tt, tr) →
  run w user_id config = (Ok tt, tr).
Proof.
  intros Hbody. unfold run, get_material, try_except. rewrite Hbody.
  reflexivity.
Qed.

End Steps.

(** ** Every path of a request *)

(** Splits a request into its paths, following the answers of the world,
    and rewrites [run] into the trace of each. *)
Ltac answer_of r := destruct r as [[]|?e] eqn:?Hsend.

Ltac request_paths w u cfg :=
  let status := fresh "status" in
  let p := fresh "p" in
  let e := fresh "e" in
  let Hq := fresh "Hq" in
  let Hsub := fresh "Hsub" in
  let Hfile := fresh "Hfile" in
  let Hex := fresh "Hex" in
  let Hopen := fresh "Hopen" in
  let Hroute := fresh "Hroute" in
  destruct (get_chat_member w (target_chat_id cfg) u) as [status|e] eqn:Hq;
  [ destruct (is_subscribed status) eqn:Hsub;
    [ assert (text_route w cfg ∨
              (∃ p, material_file_path cfg = Some p ∧ path_exists w p = Ok true) ∨
              (∃ p e, material_file_path cfg = Some p ∧ path_exists w p = Raise e))
        as [Hroute | [(p & Hfile & Hex) | (p & e & Hfile & Hex)]]
        by (unfold text_route;
            destruct (material_file_path cfg) as [p|]; [|by left];
            destruct (path_exists w p) as [[|]|e] eqn:Hex; eauto 8);
      [ pose proof (text_single_send w u cfg status Hq Hsub Hroute);
        answer_of (transport_send w 0
                     (send_message u (py_or (material_text cfg) text_default_material) None));
        [ erewrite run_single_send_ok by eassumption
        | erewrite run_single_send_rejected by eassumption;
          answer_of (transport_send w 1 (check_failed_reply u cfg)) ]
      | assert (file_route w cfg p) as Hroute by (split; assumption);
        destruct (path_open w p) as [[]|e] eqn:Hopen;
        [ answer_of (transport_send w 0
                       (send_document u p (name p) (or_None (material_text cfg))));
          [ erewrite run_file_sent by eassumption
          | pose proof (file_send_failed w u cfg status p _ Hq Hsub Hroute Hopen
                          ltac:(eassumption)) as Hbody;
            answer_of (transport_send w 1 (send_message u text_file_error None));
            [ erewrite run_body_ok by exact Hbody
            | erewrite run_outer_handler by exact Hbody;
              unfold sends_so_far; simpl;
              answer_of (transport_send w 2 (check_failed_reply u cfg)) ] ]
        | pose proof (file_open_failed w u cfg status p _ Hq Hsub Hroute Hopen) as Hbody;
          answer_of (transport_send w 0 (send_message u text_file_error None));
          [ erewrite run_body_ok by exact Hbody
          | erewrite run_outer_handler by exact Hbody;
            unfold sends_so_far; simpl;
            answer_of (transport_send w 1 (check_failed_reply u cfg)) ] ]
      | erewrite run_exists_failed by eassumption;
        answer_of (transport_send w 0 (check_failed_reply u cfg)) ]
    | pose proof (not_subscribed_single_send w u cfg status Hq Hsub);
      answer_of (transport_send w 0 (prompt_reply u cfg));
      [ erewrite run_single_send_ok by eassumption
      | erewrite run_single_send_rejected by eassumption;
        answer_of (transport_send w 1 (check_failed_reply u cfg)) ] ]
  | erewrite run_query_failed by eassumption;
    answer_of (transport_send w 0 (check_failed_reply u cfg)) ].

(** Every request invokes a send, and no more than three. *)
Lemma run_invokes_send (w : world) (user_id : Z) (config : Config) :
  (1 ≤ length (calls (run w user_id config).2) ≤ 3)%nat.
Proof. request_paths w user_id config; simpl; lia. Qed.

(** ** The scenario of the specification *)

(** The scenario of the specification: a member receives the text, a user
    who left receives the prompt with the link. *)
Example member_gets_text :
  run Examples.world_member 1 Examples.config_text =
    (Ok tt,
     [Logged (LogDebug 1 "member" (ChatInt (-100123)));
      Sent (send_message 1 "Thanks!" None) (Ok tt)]).
Proof. reflexivity. Qed.

Example left_gets_prompt :
  run Examples.world_left 2 Examples.config_text =
    (Ok tt,
     [Logged (LogDebug 2 "left" (ChatInt (-100123)));
      Sent (send_message 2
              (text_not_subscribed +:+ newline +:+ "https://t.me/x") (Some HTML))
           (Ok tt)]).
Proof. reflexivity. Qed.

Example creator_is_subscribed : is_subscribed "creator" = true.
Proof. reflexivity. Qed.

Example kicked_is_not_subscribed : is_subscribed "kicked" = false.
Proof. reflexivity. Qed.

(** The library functions of the examples. *)
Example name_of_material : name Examples.material_pdf = "material.pdf".
Proof. reflexivity. Qed.

Example int_of_channel_id : Runtime.int_decimal "-1001234567890" = Some (-1001234567890).
Proof. reflexivity. Qed.

Example int_of_username : Runtime.int_decimal "@your_channel" = None.
Proof. reflexivity. Qed.

Example expand_own_home :
  Runtime.expanduser_with Runtime.homes "~/material.pdf" = Ok (Path "/home/bot/material.pdf").
Proof. reflexivity. Qed.

Example expand_unknown_user :
  Runtime.expanduser_with Runtime.homes "~ghost/material.pdf" =
    Raise (RuntimeError "Could not determine home directory.").
Proof. reflexivity. Qed.

Example load_docstring_example :
  load_config Runtime.int_decimal (Runtime.expanduser_with Runtime.homes) ∅ Runtime.dotenv_example =
    Ok {| token := "123456:ABCDEF";
          target_chat_id := ChatInt (-1001234567890);
          material_text := Some "Thanks for subscribing! Here is your material";
          material_file_path := None;
          channel_invite_link := Some "https://t.me/your_channel" |}.
Proof. vm_compute. reflexivity. Qed.

(** ** Authorization fails closed *)

(** C1, on the code: for every status outside owner, administrator and
    member, recognized or not, the handler takes the not-subscribed branch.
    Its first send is the subscription prompt; every send of the request is
    the prompt or the reply of the outer handler, whatever the material is,
    so that the material is never sent; when the transport accepts the prompt
    the handler returns normally with that single reply; and the handler
    raises only when the transport has rejected the prompt and then the
    reply of the outer handler. *)
Theorem unauthorized_status_fails_closed (w : world) (user_id : Z) (config : Config)
    (status : string) :
  get_chat_member w (target_chat_id config) user_id = Ok status →
  status ∉ authorized →
  let prompt := prompt_reply user_id config in
  let fallback := check_failed_reply user_id config in
  let r := (run w user_id config).1 in
  let tr := (run w user_id config).2 in
  head (calls tr) = Some prompt ∧
  (∀ c, c ∈ calls tr → c = prompt ∨ c = fallback) ∧
  (∀ text file, run w user_id (with_material config text file) = run w user_id config) ∧
  (transport_send w 0 prompt = Ok tt →
     r = Ok tt ∧ calls tr = [prompt] ∧ delivered tr = [prompt]) ∧
  (∀ e, r = Raise e →
     is_ok (transport_send w 0 prompt) = false ∧
     transport_send w 1 fallback = Raise e).
Proof.
  intros Hq Hout. apply not_subscribed_unauthorized in Hout as Hsub.
  pose proof (not_subscribed_single_send w user_id config status Hq Hsub) as Hone.
  simpl. split_and!.
  - destruct (transport_send w 0 (prompt_reply user_id config)) as [[]|e] eqn:Hs.
    + erewrite run_single_send_ok by eassumption. reflexivity.
    + erewrite run_single_send_rejected by eassumption. reflexivity.
  - intros c. destruct (transport_send w 0 (prompt_reply user_id config)) as [[]|e] eqn:Hs.
    + erewrite run_single_send_ok by eassumption. simpl.
      rewrite list_elem_of_singleton. auto.
    + erewrite run_single_send_rejected by eassumption. simpl.
      rewrite !elem_of_cons, elem_of_nil. intuition.
  - intros text file.
    assert (single_send w user_id (with_material config text file) status
              (prompt_reply user_id config)) as Hone'
      by (apply (not_subscribed_single_send w user_id (with_material config text file));
          assumption).
    destruct (transport_send w 0 (prompt_reply user_id config)) as [[]|e] eqn:Hs.
    + rewrite (run_single_send_ok w user_id config status _ Hone Hs).
      apply (run_single_send_ok w user_id (with_material config text file) status _ Hone' Hs).
    + rewrite (run_single_send_rejected w user_id config status _ e Hone Hs).
      apply (run_single_send_rejected w user_id (with_material config text file)
               status _ e Hone' Hs).
  - intros Hs. erewrite run_single_send_ok by eassumption. auto.
  - intros e.
    destruct (transport_send w 0 (prompt_reply user_id config)) as [[]|e0] eqn:Hs.
    + erewrite run_single_send_ok by eassumption. discriminate.
    + erewrite run_single_send_rejected by eassumption. simpl. auto.
Qed.

(** A user who left, with a transport that accepts the prompt. *)
Lemma unauthorized_status_fails_closed_witness :
  get_chat_member Examples.world_left (target_chat_id Examples.config_file) 2 = Ok "left" ∧
  ("left" ∉ authorized) ∧
  (run Examples.world_left 2 Examples.config_file).1 = Ok tt ∧
  calls (run Examples.world_left 2 Examples.config_file).2 =
    [prompt_reply 2 Examples.config_file].
Proof.
  assert (get_chat_member Examples.world_left
            (target_chat_id Examples.config_file) 2 = Ok "left") as Hq by reflexivity.
  assert ("left" ∉ authorized) as Hout
    by (apply not_subscribed_unauthorized; reflexivity).
  destruct (unauthorized_status_fails_closed Examples.world_left 2
              Examples.config_file "left" Hq Hout) as (_ & _ & _ & Hok & _).
  destruct (Hok eq_refl) as (Hr & Hc & _).
  split_and!; assumption.
Defined.

(** C1 as stated fails: the user left the channel and has never opened a
    chat with the bot, so the transport rejects the prompt and then the reply
    of the outer handler, and the handler raises. *)
Lemma unauthorized_status_may_raise :
  ("left" ∉ authorized) ∧
  run Examples.world_left_blocked 2 Examples.config_text =
    (Raise Examples.forbidden,
     [Logged (LogDebug 2 "left" (ChatInt (-100123)));
      Sent (prompt_reply 2 Examples.config_text) (Raise Examples.forbidden);
      Logged (LogWarning 2 Examples.forbidden);
      Sent (check_failed_reply 2 Examples.config_text) (Raise Examples.forbidden)]).
Proof.
  split.
  - apply not_subscribed_unauthorized. reflexivity.
  - reflexivity.
Qed.

(** ** Delivery to a subscriber *)

(** C2, on the code: for every authorized status the handler invokes at
    least one send operation, and at most three; when the check and the
    opening of the material file do not fail and the transport accepts the
    first send, the handler returns normally after exactly one send
    operation, which carries the material: [send_document] of the file, or
    [send_message] of the text. *)
Theorem authorized_status_gets_material (w : world) (user_id : Z) (config : Config)
    (status : string) :
  get_chat_member w (target_chat_id config) user_id = Ok status →
  status ∈ authorized →
  let tr := (run w user_id config).2 in
  (1 ≤ length (calls tr) ≤ 3)%nat ∧
  ((∀ p, material_file_path config = Some p →
         path_exists w p = Ok false ∨
         (path_exists w p = Ok true ∧ path_open w p = Ok tt)) →
   (∀ c, transport_send w 0 c = Ok tt) →
   ∃ c, is_material_send user_id config c ∧
        run w user_id config =
          (Ok tt, [Logged (LogDebug user_id status (target_chat_id config));
                   Sent c (Ok tt)])).
Proof.
  intros Hq Hin. apply is_subscribed_authorized in Hin as Hsub.
  simpl. split; [apply run_invokes_send|].
  intros Hfile Hsend.
  destruct (material_file_path config) as [p|] eqn:Hp.
  - destruct (Hfile p eq_refl) as [Hmissing | [Hfound Hopen]].
    + eexists. split; [|eapply run_single_send_ok; [|apply Hsend]].
      2:{ apply text_single_send; try assumption.
          unfold text_route. rewrite Hp. exact Hmissing. }
      simpl. auto.
    + eexists. split; [|eapply run_file_sent; try eassumption; [|apply Hsend]].
      2:{ split; assumption. }
      simpl. auto.
  - eexists. split; [|eapply run_single_send_ok; [|apply Hsend]].
    2:{ apply text_single_send; try assumption.
        unfold text_route. rewrite Hp. exact I. }
    simpl. auto.
Qed.

(** An administrator, a file that is there, a transport that accepts. *)
Lemma authorized_status_gets_material_witness :
  get_chat_member Examples.world_admin (target_chat_id Examples.config_file) 3 =
    Ok "administrator" ∧
  ("administrator" ∈ authorized) ∧
  calls (run Examples.world_admin 3 Examples.config_file).2 =
    [send_document 3 Examples.material_pdf "material.pdf" (Some "Thanks!")].
Proof.
  assert (get_chat_member Examples.world_admin
            (target_chat_id Examples.config_file) 3 = Ok "administrator")
    as Hq by reflexivity.
  assert ("administrator" ∈ authorized) as Hin
    by (apply is_subscribed_authorized; reflexivity).
  destruct (authorized_status_gets_material Examples.world_admin 3
              Examples.config_file "administrator" Hq Hin) as [_ Hone].
  destruct Hone as (c & _ & Hrun).
  - intros p [= <-]. right. split; reflexivity.
  - intros c. reflexivity.
  - split_and!; [assumption..|]. reflexivity.
Defined.

(** C2 as stated fails: the transport rejects the document of a member, and
    the handler follows the [send_document] with a [send_message], the
    notice of the failure: two send operations, one of each kind. *)
Lemma authorized_status_two_sends :
  ("member" ∈ authorized) ∧
  run Examples.world_member_document_rejected 1 Examples.config_file =
    (Ok tt,
     [Logged (LogDebug 1 "member" (ChatInt (-100123)));
      Sent (send_document 1 Examples.material_pdf "material.pdf" (Some "Thanks!"))
           (Raise Examples.timed_out);
      Logged (LogException Examples.timed_out);
      Sent (send_message 1 text_file_error None) (Ok tt)]).
Proof.
  split.
  - apply is_subscribed_authorized. reflexivity.
  - reflexivity.
Qed.

(** ** The membership query fails *)

(** C3, on the code: whatever the membership query raises, the handler
    catches it, logs one warning with it and invokes exactly one send, the
    reply of the outer handler; the answer of the transport to that send is
    the answer of the handler, so that the handler returns normally when the
    reply is accepted and raises when it is rejected. *)
Theorem query_failure_is_caught (w : world) (user_id : Z) (config : Config) (e : exn) :
  get_chat_member w (target_chat_id config) user_id = Raise e →
  let reply := check_failed_reply user_id config in
  let r := (run w user_id config).1 in
  let tr := (run w user_id config).2 in
  tr = [Logged (LogWarning user_id e); Sent reply r] ∧
  r = transport_send w 0 reply ∧
  warnings tr = [e] ∧
  calls tr = [reply].
Proof.
  intros Hq. simpl. rewrite (run_query_failed w user_id config e Hq). simpl.
  auto.
Qed.

(** The query fails and the transport accepts the reply. *)
Lemma query_failure_is_caught_witness :
  get_chat_member Examples.world_query_failed
    (target_chat_id Examples.config_text) 4 = Raise Examples.user_not_found ∧
  run Examples.world_query_failed 4 Examples.config_text =
    (Ok tt,
     [Logged (LogWarning 4 Examples.user_not_found);
      Sent (check_failed_reply 4 Examples.config_text) (Ok tt)]).
Proof.
  assert (get_chat_member Examples.world_query_failed
            (target_chat_id Examples.config_text) 4 = Raise Examples.user_not_found)
    as Hq by reflexivity.
  destruct (query_failure_is_caught Examples.world_query_failed 4
              Examples.config_text Examples.user_not_found Hq) as (Htr & Hr & _).
  split; [assumption|].
  rewrite (surjective_pairing (run _ _ _)), Htr, Hr. reflexivity.
Defined.

(** C3 as stated fails: the query fails and the transport rejects the one
    reply, so that an exception leaves the handler and the user has no
    reply. *)
Lemma query_failure_reply_rejected :
  run Examples.world_query_failed_blocked 4 Examples.config_text =
    (Raise Examples.forbidden,
     [Logged (LogWarning 4 Examples.user_not_found);
      Sent (check_failed_reply 4 Examples.config_text) (Raise Examples.forbidden)]) ∧
  delivered (run Examples.world_query_failed_blocked 4 Examples.config_text).2 = [].
Proof. split; reflexivity. Qed.

(** ** File and text *)

(** C4, on the code: for every authorized status, when the material file is
    configured, is there and can be opened, the first send of the request is
    [send_document] of that file under its own name, with the material text
    as caption when the text is not empty and no caption otherwise; when the
    transport accepts it, nothing else is sent; and in every case the
    material text is not sent as a message: the only messages that may
    follow are the notice of a failed file send and the reply of the outer
    handler. *)
Theorem existing_file_is_sent_with_caption (w : world) (user_id : Z) (config : Config)
    (status : string) (p : path) :
  get_chat_member w (target_chat_id config) user_id = Ok status →
  status ∈ authorized →
  material_file_path config = Some p →
  path_exists w p = Ok true →
  path_open w p = Ok tt →
  let doc := send_document user_id p (name p) (or_None (material_text config)) in
  let notice := send_message user_id text_file_error None in
  let fallback := check_failed_reply user_id config in
  let tr := (run w user_id config).2 in
  head (calls tr) = Some doc ∧
  (∀ t, material_text config = Some t → truthy_str t = true →
        doc = send_document user_id p (name p) (Some t)) ∧
  (¬ truthy (material_text config) → doc = send_document user_id p (name p) None) ∧
  (∀ c, c ∈ calls tr → c = doc ∨ c = notice ∨ c = fallback) ∧
  (transport_send w 0 doc = Ok tt →
     run w user_id config =
       (Ok tt, [Logged (LogDebug user_id status (target_chat_id config));
                Sent doc (Ok tt)])).
Proof.
  intros Hq Hin Hfile Hfound Hopen. apply is_subscribed_authorized in Hin as Hsub.
  assert (file_route w config p) as Hroute by (split; assumption).
  simpl. split_and!.
  - destruct (transport_send w 0
                (send_document user_id p (name p) (or_None (material_text config))))
      as [[]|e] eqn:Hs.
    + erewrite run_file_sent by eassumption. reflexivity.
    + pose proof (file_send_failed w user_id config status p e Hq Hsub Hroute Hopen Hs)
        as Hbody.
      destruct (transport_send w 1 (send_message user_id text_file_error None))
        as [[]|e1] eqn:Hs1.
      * erewrite run_body_ok by exact Hbody. reflexivity.
      * erewrite run_outer_handler by exact Hbody. reflexivity.
  - intros t -> Ht. simpl. rewrite Ht. reflexivity.
  - destruct (material_text config) as [t|]; simpl; [|reflexivity].
    destruct (truthy_str t); [intros []; exact I | reflexivity].
  - intros c.
    destruct (transport_send w 0
                (send_document user_id p (name p) (or_None (material_text config))))
      as [[]|e] eqn:Hs.
    + erewrite run_file_sent by eassumption. simpl.
      rewrite list_elem_of_singleton. auto.
    + pose proof (file_send_failed w user_id config status p e Hq Hsub Hroute Hopen Hs)
        as Hbody.
      destruct (transport_send w 1 (send_message user_id text_file_error None))
        as [[]|e1] eqn:Hs1.
      * erewrite run_body_ok by exact Hbody. simpl.
        rewrite !elem_of_cons, elem_of_nil. intuition.
      * erewrite run_outer_handler by exact Hbody. simpl.
        rewrite !elem_of_cons, elem_of_nil. intuition.
  - intros Hs. apply run_file_sent; assumption.
Qed.

(** The owner, with a file and a text: the file goes out with the text as
    its caption. *)
Lemma existing_file_is_sent_with_caption_witness :
  get_chat_member Examples.world_owner (target_chat_id Examples.config_file) 5 =
    Ok "creator" ∧
  ("creator" ∈ authorized) ∧
  run Examples.world_owner 5 Examples.config_file =
    (Ok tt,
     [Logged (LogDebug 5 "creator" (ChatInt (-100123)));
      Sent (send_document 5 Examples.material_pdf "material.pdf" (Some "Thanks!"))
           (Ok tt)]).
Proof.
  assert (get_chat_member Examples.world_owner
            (target_chat_id Examples.config_file) 5 = Ok "creator") as Hq by reflexivity.
  assert ("creator" ∈ authorized) as Hin
    by (apply is_subscribed_authorized; reflexivity).
  destruct (existing_file_is_sent_with_caption Examples.world_owner 5
              Examples.config_file "creator" Examples.material_pdf Hq Hin
              eq_refl eq_refl eq_refl) as (_ & _ & _ & _ & Hrun).
  split_and!; [assumption..|]. apply Hrun. reflexivity.
Defined.

(** C4 as stated fails: the file of a member is there but cannot be opened;
    no [send_document] is invoked and the user receives a plain message, the
    notice of the failure. *)
Lemma existing_file_not_opened :
  ("member" ∈ authorized) ∧
  material_file_path Examples.config_file = Some Examples.material_pdf ∧
  path_exists Examples.world_member_unreadable Examples.material_pdf = Ok true ∧
  run Examples.world_member_unreadable 1 Examples.config_file =
    (Ok tt,
     [Logged (LogDebug 1 "member" (ChatInt (-100123)));
      Logged (LogException Examples.permission_denied);
      Sent (send_message 1 text_file_error None) (Ok tt)]).
Proof.
  split_and!; try reflexivity.
  apply is_subscribed_authorized. reflexivity.
Qed.

(** C5, on the code: for every authorized status, when the material file is
    configured and is not there, the handler takes the text branch: its
    first send is a plain [send_message] of the material text when the text
    is not empty and of the placeholder otherwise; when the transport accepts
    it, the handler returns normally with that single reply; and the handler
    raises only when the transport has rejected that message and then the
    reply of the outer handler. *)
Theorem missing_file_falls_back_to_text (w : world) (user_id : Z) (config : Config)
    (status : string) (p : path) :
  get_chat_member w (target_chat_id config) user_id = Ok status →
  status ∈ authorized →
  material_file_path config = Some p →
  path_exists w p = Ok false →
  let message :=
    send_message user_id (py_or (material_text config) text_default_material) None in
  let fallback := check_failed_reply user_id config in
  let r := (run w user_id config).1 in
  let tr := (run w user_id config).2 in
  head (calls tr) = Some message ∧
  (∀ t, material_text config = Some t → truthy_str t = true →
        message = send_message user_id t None) ∧
  (¬ truthy (material_text config) →
        message = send_message user_id text_default_material None) ∧
  (transport_send w 0 message = Ok tt →
     run w user_id config =
       (Ok tt, [Logged (LogDebug user_id status (target_chat_id config));
                Sent message (Ok tt)])) ∧
  (∀ e, r = Raise e →
     is_ok (transport_send w 0 message) = false ∧
     transport_send w 1 fallback = Raise e).
Proof.
  intros Hq Hin Hfile Hmissing. apply is_subscribed_authorized in Hin as Hsub.
  assert (single_send w user_id config status
            (send_message user_id
               (py_or (material_text config) text_default_material) None)) as Hone.
  { apply text_single_send; try assumption.
    unfold text_route. rewrite Hfile. exact Hmissing. }
  simpl. split_and!.
  - destruct (transport_send w 0
                (send_message user_id
                   (py_or (material_text config) text_default_material) None))
      as [[]|e] eqn:Hs.
    + erewrite run_single_send_ok by eassumption. reflexivity.
    + erewrite run_single_send_rejected by eassumption. reflexivity.
  - intros t -> Ht. simpl. rewrite Ht. reflexivity.
  - destruct (material_text config) as [t|]; simpl; [|reflexivity].
    destruct (truthy_str t); [intros []; exact I | reflexivity].
  - intros Hs. eapply run_single_send_ok; eassumption.
  - intros e.
    destruct (transport_send w 0
                (send_message user_id
                   (py_or (material_text config) text_default_material) None))
      as [[]|e0] eqn:Hs.
    + erewrite run_single_send_ok by eassumption. discriminate.
    + erewrite run_single_send_rejected by eassumption. simpl. auto.
Qed.

(** A member whose file has been deleted: the text, then the placeholder
    when there is no text either. *)
Lemma missing_file_falls_back_to_text_witness :
  get_chat_member Examples.world_member_no_file
    (target_chat_id Examples.config_file) 1 = Ok "member" ∧
  ("member" ∈ authorized) ∧
  path_exists Examples.world_member_no_file Examples.material_pdf = Ok false ∧
  run Examples.world_member_no_file 1 Examples.config_file =
    (Ok tt,
     [Logged (LogDebug 1 "member" (ChatInt (-100123)));
      Sent (send_message 1 "Thanks!" None) (Ok tt)]) ∧
  run Examples.world_member_no_file 1 Examples.config_bare =
    (Ok tt,
     [Logged (LogDebug 1 "member" (ChatStr "@your_channel"));
      Sent (send_message 1 text_default_material None) (Ok tt)]).
Proof.
  assert (get_chat_member Examples.world_member_no_file
            (target_chat_id Examples.config_file) 1 = Ok "member") as Hq by reflexivity.
  assert ("member" ∈ authorized) as Hin
    by (apply is_subscribed_authorized; reflexivity).
  destruct (missing_file_falls_back_to_text Examples.world_member_no_file 1
              Examples.config_file "member" Examples.material_pdf Hq Hin
              eq_refl eq_refl) as (_ & _ & _ & Hrun & _).
  destruct (missing_file_falls_back_to_text Examples.world_member_no_file 1
              Examples.config_bare "member" Examples.material_pdf eq_refl Hin
              eq_refl eq_refl) as (_ & _ & _ & Hrun' & _).
  split_and!; [assumption | assumption | reflexivity | |].
  - apply Hrun. reflexivity.
  - apply Hrun'. reflexivity.
Defined.

(** C5 as stated fails: the file of a member is missing, the text is set,
    and the transport rejects the text and then the reply of the outer
    handler: the handler raises and the user has no reply. *)
Lemma missing_file_no_reply :
  ("member" ∈ authorized) ∧
  path_exists Examples.world_member_no_file_blocked Examples.material_pdf = Ok false ∧
  run Examples.world_member_no_file_blocked 1 Examples.config_file =
    (Raise Examples.forbidden,
     [Logged (LogDebug 1 "member" (ChatInt (-100123)));
      Sent (send_message 1 "Thanks!" None) (Raise Examples.timed_out);
      Logged (LogWarning 1 Examples.timed_out);
      Sent (check_failed_reply 1 Examples.config_file) (Raise Examples.forbidden)]) ∧
  delivered (run Examples.world_member_no_file_blocked 1 Examples.config_file).2 = [].
Proof.
  split_and!; try reflexivity.
  apply is_subscribed_authorized. reflexivity.
Qed.

(** ** The invite link *)

Lemma append_empty_r (s : string) : s +:+ "" = s.
Proof.
  induction s as [|c s IH]; [reflexivity|].
  change (String c (s +:+ "") = String c s). rewrite IH. reflexivity.
Qed.

Lemma append_assoc (s1 s2 s3 : string) : (s1 +:+ s2) +:+ s3 = s1 +:+ s2 +:+ s3.
Proof.
  induction s1 as [|c s1 IH]; [reflexivity|].
  change (String c ((s1 +:+ s2) +:+ s3) = String c (s1 +:+ s2 +:+ s3)).
  rewrite IH. reflexivity.
Qed.

Lemma with_invite_link_contains (base link : string) :
  contains link (with_invite_link base (Some link)).
Proof.
  unfold contains, with_invite_link. destruct link as [|c link]; cbn [truthy_str].
  - exists base, "". rewrite !append_empty_r. reflexivity.
  - exists (base +:+ newline), "". rewrite append_empty_r, append_assoc. reflexivity.
Qed.

Lemma with_invite_link_falsy (base : string) (link : option string) :
  truthy link = false → with_invite_link base link = base.
Proof.
  unfold with_invite_link, truthy. destruct link as [l|]; [|reflexivity].
  intros ->. reflexivity.
Qed.

Lemma with_invite_link_truthy (base link : string) :
  truthy_str link = true →
  with_invite_link base (Some link) = base +:+ newline +:+ link.
Proof. unfold with_invite_link. intros ->. reflexivity. Qed.

(** C6: when the user is not authorized or the membership query fails, the
    request has a reply, and the text of every reply is one of the two fixed
    sentences followed, when the invite link is not empty, by a newline and
    the link: a configured link is contained in the text, and without a link
    the text is the fixed sentence alone. *)
Theorem replies_carry_invite_link (w : world) (user_id : Z) (config : Config) :
  not_authorized_outcome (get_chat_member w (target_chat_id config) user_id) →
  let tr := (run w user_id config).2 in
  calls tr ≠ [] ∧
  ∀ c, c ∈ calls tr →
    ∃ base parse_mode,
      (base = text_not_subscribed ∨ base = text_check_failed) ∧
      c = send_message user_id
            (with_invite_link base (channel_invite_link config)) parse_mode ∧
      (∀ link, channel_invite_link config = Some link →
               contains link (with_invite_link base (channel_invite_link config))) ∧
      (∀ link, channel_invite_link config = Some link → truthy_str link = true →
               with_invite_link base (channel_invite_link config) =
                 base +:+ newline +:+ link) ∧
      (truthy (channel_invite_link config) = false →
               with_invite_link base (channel_invite_link config) = base).
Proof.
  intros Hout. simpl.
  assert (∀ base, (∀ link, channel_invite_link config = Some link →
               contains link (with_invite_link base (channel_invite_link config))) ∧
      (∀ link, channel_invite_link config = Some link → truthy_str link = true →
               with_invite_link base (channel_invite_link config) =
                 base +:+ newline +:+ link) ∧
      (truthy (channel_invite_link config) = false →
               with_invite_link base (channel_invite_link config) = base)) as Htext.
  { intros base. split_and!.
    - intros link ->. apply with_invite_link_contains.
    - intros link ->. apply with_invite_link_truthy.
    - apply with_invite_link_falsy. }
  assert (∀ c, c = prompt_reply user_id config ∨ c = check_failed_reply user_id config →
    ∃ base parse_mode,
      (base = text_not_subscribed ∨ base = text_check_failed) ∧
      c = send_message user_id
            (with_invite_link base (channel_invite_link config)) parse_mode ∧
      (∀ link, channel_invite_link config = Some link →
               contains link (with_invite_link base (channel_invite_link config))) ∧
      (∀ link, channel_invite_link config = Some link → truthy_str link = true →
               with_invite_link base (channel_invite_link config) =
                 base +:+ newline +:+ link) ∧
      (truthy (channel_invite_link config) = false →
               with_invite_link base (channel_invite_link config) = base)) as Hreply.
  { intros c [-> | ->].
    - exists text_not_subscribed, (Some HTML). split_and!; auto; apply Htext.
    - exists text_check_failed, None. split_and!; auto; apply Htext. }
  split.
  { pose proof (run_invokes_send w user_id config) as Hn.
    intros Hnil. rewrite Hnil in Hn. simpl in Hn. lia. }
  intros c Hc. apply Hreply.
  destruct (get_chat_member w (target_chat_id config) user_id) as [status|e] eqn:Hq.
  - simpl in Hout. apply not_subscribed_unauthorized in Hout as Hsub.
    pose proof (not_subscribed_single_send w user_id config status Hq Hsub) as Hone.
    destruct (transport_send w 0 (prompt_reply user_id config)) as [[]|e] eqn:Hs.
    + erewrite run_single_send_ok in Hc by eassumption. simpl in Hc.
      apply list_elem_of_singleton in Hc. auto.
    + erewrite run_single_send_rejected in Hc by eassumption. simpl in Hc.
      rewrite !elem_of_cons, elem_of_nil in Hc. intuition.
  - rewrite (run_query_failed w user_id config e Hq) in Hc. simpl in Hc.
    apply list_elem_of_singleton in Hc. auto.
Qed.

(** The user who left receives the prompt with the link of the channel. *)
Lemma replies_carry_invite_link_witness :
  not_authorized_outcome
    (get_chat_member Examples.world_left (target_chat_id Examples.config_text) 2) ∧
  ∃ base parse_mode,
    send_message 2 (with_invite_link base (Some "https://t.me/x")) parse_mode
      ∈ calls (run Examples.world_left 2 Examples.config_text).2 ∧
    contains "https://t.me/x" (with_invite_link base (Some "https://t.me/x")).
Proof.
  assert (not_authorized_outcome
            (get_chat_member Examples.world_left
               (target_chat_id Examples.config_text) 2)) as Hout
    by (apply not_subscribed_unauthorized; reflexivity).
  split; [assumption|].
  destruct (replies_carry_invite_link Examples.world_left 2 Examples.config_text Hout)
    as [_ Hall].
  destruct (Hall (prompt_reply 2 Examples.config_text))
    as (base & parse_mode & _ & Heq & Hlink & _).
  { apply list_elem_of_singleton. reflexivity. }
  exists base, parse_mode. split.
  - change (Some "https://t.me/x") with (channel_invite_link Examples.config_text).
    rewrite <- Heq. apply list_elem_of_singleton. reflexivity.
  - exact (Hlink _ eq_refl).
Defined.

(** ** Replies on every path *)

(** C7, on the code: on every path of a request the handler invokes at
    least one send and the user receives at most one reply; the user
    receives exactly one reply exactly when the handler returns normally;
    and when the handler raises, the user has received nothing and the last
    thing the handler did was the send of the reply of the outer handler,
    which the transport rejected. *)
Theorem at_most_one_reply (w : world) (user_id : Z) (config : Config) :
  let r := (run w user_id config).1 in
  let tr := (run w user_id config).2 in
  (1 ≤ length (calls tr) ≤ 3)%nat ∧
  (length (delivered tr) ≤ 1)%nat ∧
  (r = Ok tt ↔ length (delivered tr) = 1%nat) ∧
  (∀ e, r = Raise e →
        delivered tr = [] ∧
        last tr = Some (Sent (check_failed_reply user_id config) (Raise e))).
Proof.
  request_paths w user_id config; simpl.
  all: repeat split; try lia; try congruence; try discriminate.
  all: intros; simplify_eq; eauto.
Qed.

(** C7 as stated fails: the transport rejects what the bot sends to a
    banned user; two sends are invoked, none is delivered, and the handler
    raises. *)
Lemma banned_user_left_unanswered :
  run Examples.world_banned_blocked 6 Examples.config_file =
    (Raise Examples.forbidden,
     [Logged (LogDebug 6 "kicked" (ChatInt (-100123)));
      Sent (prompt_reply 6 Examples.config_file) (Raise Examples.forbidden);
      Logged (LogWarning 6 Examples.forbidden);
      Sent (check_failed_reply 6 Examples.config_file) (Raise Examples.forbidden)]) ∧
  length (calls (run Examples.world_banned_blocked 6 Examples.config_file).2) = 2%nat ∧
  delivered (run Examples.world_banned_blocked 6 Examples.config_file).2 = [].
Proof. split_and!; reflexivity. Qed.

(** ** The outer handler *)

(** C9, on the code: the outer handler catches every exception that leaves
    the body of its [try], logs it as a warning and then attempts the reply
    of the outer handler, whose answer is the answer of the request.  The
    exceptions that leave the body are the one of the membership query, the
    one of the check of the file, the rejection of the text of the
    authorized-text branch, the rejection of the prompt of the
    not-subscribed branch, and the rejection of the notice that the inner
    handler sends after a failed file send. *)
Theorem outer_handler_converts_failures (w : world) (user_id : Z) (config : Config) :
  let fallback := check_failed_reply user_id config in
  let text_message :=
    send_message user_id (py_or (material_text config) text_default_material) None in
  let notice := send_message user_id text_file_error None in
  let debug status := Logged (LogDebug user_id status (target_chat_id config)) in
  let warning e := Logged (LogWarning user_id e) in
  (∀ e tr, check_and_deliver w user_id config [] = (Raise e, tr) →
     run w user_id config =
       (transport_send w (sends_so_far tr) fallback,
        tr ++ [warning e; Sent fallback (transport_send w (sends_so_far tr) fallback)])) ∧
  (∀ e, get_chat_member w (target_chat_id config) user_id = Raise e →
     run w user_id config =
       (transport_send w 0 fallback,
        [warning e; Sent fallback (transport_send w 0 fallback)])) ∧
  (∀ status e,
     get_chat_member w (target_chat_id config) user_id = Ok status →
     status ∈ authorized →
     text_route w config →
     transport_send w 0 text_message = Raise e →
     run w user_id config =
       (transport_send w 1 fallback,
        [debug status; Sent text_message (Raise e); warning e;
         Sent fallback (transport_send w 1 fallback)])) ∧
  (∀ status e,
     get_chat_member w (target_chat_id config) user_id = Ok status →
     status ∉ authorized →
     transport_send w 0 (prompt_reply user_id config) = Raise e →
     run w user_id config =
       (transport_send w 1 fallback,
        [debug status; Sent (prompt_reply user_id config) (Raise e); warning e;
         Sent fallback (transport_send w 1 fallback)])) ∧
  (∀ status p e,
     get_chat_member w (target_chat_id config) user_id = Ok status →
     status ∈ authorized →
     material_file_path config = Some p →
     path_exists w p = Raise e →
     run w user_id config =
       (transport_send w 0 fallback,
        [debug status; warning e; Sent fallback (transport_send w 0 fallback)])) ∧
  (∀ status p e e',
     get_chat_member w (target_chat_id config) user_id = Ok status →
     status ∈ authorized →
     file_route w config p →
     path_open w p = Raise e →
     transport_send w 0 notice = Raise e' →
     run w user_id config =
       (transport_send w 1 fallback,
        [debug status; Logged (LogException e); Sent notice (Raise e'); warning e';
         Sent fallback (transport_send w 1 fallback)])).
Proof.
  simpl. split_and!.
  - intros e tr Hbody. apply run_outer_handler. exact Hbody.
  - intros e Hq. apply run_query_failed. exact Hq.
  - intros status e Hq Hin Hroute Hs. apply is_subscribed_authorized in Hin.
    apply run_single_send_rejected; [|exact Hs].
    apply text_single_send; assumption.
  - intros status e Hq Hout Hs. apply not_subscribed_unauthorized in Hout.
    apply run_single_send_rejected; [|exact Hs].
    apply not_subscribed_single_send; assumption.
  - intros status p e Hq Hin Hfile Hex. apply is_subscribed_authorized in Hin.
    apply (run_exists_failed w user_id config status p e); assumption.
  - intros status p e e' Hq Hin Hroute Hopen Hs. apply is_subscribed_authorized in Hin.
    pose proof (file_open_failed w user_id config status p e Hq Hin Hroute Hopen)
      as Hbody.
    rewrite Hs in Hbody. rewrite (run_outer_handler w user_id config e' _ Hbody).
    reflexivity.
Qed.

(** The transport rejects the text of a member once: the outer handler
    logs the warning and its reply gets through. *)
Lemma outer_handler_converts_failures_witness :
  get_chat_member Examples.world_member_text_rejected
    (target_chat_id Examples.config_text) 1 = Ok "member" ∧
  ("member" ∈ authorized) ∧
  text_route Examples.world_member_text_rejected Examples.config_text ∧
  run Examples.world_member_text_rejected 1 Examples.config_text =
    (Ok tt,
     [Logged (LogDebug 1 "member" (ChatInt (-100123)));
      Sent (send_message 1 "Thanks!" None) (Raise Examples.timed_out);
      Logged (LogWarning 1 Examples.timed_out);
      Sent (check_failed_reply 1 Examples.config_text) (Ok tt)]).
Proof.
  assert (get_chat_member Examples.world_member_text_rejected
            (target_chat_id Examples.config_text) 1 = Ok "member") as Hq by reflexivity.
  assert ("member" ∈ authorized) as Hin
    by (apply is_subscribed_authorized; reflexivity).
  assert (text_route Examples.world_member_text_rejected Examples.config_text)
    as Hroute by exact I.
  destruct (outer_handler_converts_failures Examples.world_member_text_rejected 1
              Examples.config_text) as (_ & _ & Htext & _).
  split_and!; [assumption..|].
  exact (Htext "member" Examples.timed_out Hq Hin Hroute eq_refl).
Defined.

(** C9 as stated fails for a failure of the file send: the transport
    rejects the document of an administrator, the inner handler answers with
    its notice, and the outer handler neither logs a warning nor sends its
    reply. *)
Lemma file_send_failure_stays_inside :
  run Examples.world_admin_document_rejected 3 Examples.config_bare =
    (Ok tt,
     [Logged (LogDebug 3 "administrator" (ChatStr "@your_channel"));
      Sent (send_document 3 Examples.material_pdf "material.pdf" None)
           (Raise Examples.timed_out);
      Logged (LogException Examples.timed_out);
      Sent (send_message 3 text_file_error None) (Ok tt)]) ∧
  warnings (run Examples.world_admin_document_rejected 3 Examples.config_bare).2 = [] ∧
  check_failed_reply 3 Examples.config_bare
    ∉ calls (run Examples.world_admin_document_rejected 3 Examples.config_bare).2.
Proof.
  split_and!; [reflexivity | reflexivity |].
  simpl. rewrite !elem_of_cons, elem_of_nil.
  intros [H | [H | []]]; discriminate H.
Qed.

(** ** Loading the configuration *)

(** A setting is usable when it is set and not empty. *)
Lemma truthy_false (v : option string) : truthy v = false ↔ v = None ∨ v = Some "".
Proof.
  destruct v as [[|c s]|]; simpl; split; auto; try discriminate.
  - intros [H | H]; discriminate H.
Qed.

Section LoadConfigProperties.

Variable py_int : string → option Z.
Variable expanduser : string → result path.
Variables environ dotenv : gmap string string.

Let env := load_dotenv environ dotenv.
Let c_token := env !! "TELEGRAM_BOT_TOKEN".
Let c_target := env !! "TARGET_CHAT_ID".
Let c_text := env !! "MATERIAL_TEXT".
Let c_file := env !! "MATERIAL_FILE_PATH".

(** The three checks, in their order. *)
Lemma load_config_no_token :
  truthy c_token = false →
  load_config py_int expanduser environ dotenv = Raise (RuntimeError msg_token).
Proof.
  intros H. unfold load_config. fold env. fold c_token. rewrite H. reflexivity.
Qed.

Lemma load_config_no_target :
  truthy c_token = true →
  truthy c_target = false →
  load_config py_int expanduser environ dotenv = Raise (RuntimeError msg_target).
Proof.
  intros H1 H2. unfold load_config. fold env. fold c_token. fold c_target.
  rewrite H1, H2. reflexivity.
Qed.

Lemma load_config_no_material :
  truthy c_token = true →
  truthy c_target = true →
  truthy c_text = false →
  truthy c_file = false →
  load_config py_int expanduser environ dotenv = Raise (RuntimeError msg_material).
Proof.
  intros H1 H2 H3 H4. unfold load_config.
  fold env. fold c_token. fold c_target. fold c_text. fold c_file.
  rewrite H1, H2, H3, H4. reflexivity.
Qed.

(** Past the checks, only the normalization of the file path can raise. *)
Lemma load_config_checked :
  truthy c_token = true →
  truthy c_target = true →
  truthy c_text || truthy c_file = true →
  load_config py_int expanduser environ dotenv =
    (file ← (if truthy c_file
             then p ← expanduser (default "" c_file); mret (Some p)
             else mret None);
     mret {| token := default "" c_token;
             target_chat_id :=
               match py_int (default "" c_target) with
               | Some z => ChatInt z
               | None => ChatStr (default "" c_target)
               end;
             material_text := c_text;
             material_file_path := file;
             channel_invite_link := env !! "CHANNEL_INVITE_LINK" |}).
Proof.
  intros H1 H2 H3. unfold load_config.
  fold env. fold c_token. fold c_target. fold c_text. fold c_file.
  rewrite H1, H2, H3. reflexivity.
Qed.

End LoadConfigProperties.

(** C8, on the code: [load_config] raises exactly when the credential is
    unset or empty, or the target group identifier is unset or empty, or
    the material text and the material file are both unset or empty, or the
    home directory of a material file path cannot be resolved; in every
    other case it returns a configuration, which has a credential and at
    least one of the two materials. *)
Theorem load_config_raises_iff (py_int : string → option Z)
    (expanduser : string → result path) (environ dotenv : gmap string string) :
  let env := load_dotenv environ dotenv in
  let c_file := env !! "MATERIAL_FILE_PATH" in
  (is_ok (load_config py_int expanduser environ dotenv) = false ↔
     truthy (env !! "TELEGRAM_BOT_TOKEN") = false ∨
     truthy (env !! "TARGET_CHAT_ID") = false ∨
     (truthy (env !! "MATERIAL_TEXT") = false ∧ truthy c_file = false) ∨
     (truthy c_file = true ∧ is_ok (expanduser (default "" c_file)) = false)) ∧
  (∀ config, load_config py_int expanduser environ dotenv = Ok config →
     truthy_str (token config) = true ∧
     (truthy (material_text config) = true ∨ is_Some (material_file_path config))).
Proof.
  simpl.
  destruct (truthy (load_dotenv environ dotenv !! "TELEGRAM_BOT_TOKEN")) eqn:H1.
  2:{ rewrite load_config_no_token by exact H1. simpl.
      split; [split; auto | discriminate]. }
  destruct (truthy (load_dotenv environ dotenv !! "TARGET_CHAT_ID")) eqn:H2.
  2:{ rewrite load_config_no_target by assumption. simpl.
      split; [split; auto | discriminate]. }
  destruct (truthy (load_dotenv environ dotenv !! "MATERIAL_TEXT")) eqn:H3;
    destruct (truthy (load_dotenv environ dotenv !! "MATERIAL_FILE_PATH")) eqn:H4.
  4:{ rewrite load_config_no_material by assumption. simpl.
      split; [split; auto | discriminate]. }
  all: rewrite load_config_checked by (try assumption; rewrite H3, H4; reflexivity).
  all: rewrite H4.
  all: try destruct (expanduser _) as [p|e]; simpl.
  all: split;
    [ split; [discriminate || auto | intros [H | [H | [[H H'] | [H H']]]]; congruence]
    | try discriminate ].
  all: intros config [= <-]; simpl; rewrite ?H3;
    (split; [| solve [left; reflexivity | right; eexists; reflexivity]]).
  all: destruct (load_dotenv environ dotenv !! "TELEGRAM_BOT_TOKEN");
    [exact H1 | discriminate H1].
Qed.

(** C8 as stated fails: the credential, the target and both materials are
    set, and [load_config] raises, because the material file path names the
    home directory of a user that does not exist. *)
Lemma load_config_unknown_home :
  truthy (Runtime.environ_ghost !! "TELEGRAM_BOT_TOKEN") = true ∧
  truthy (Runtime.environ_ghost !! "TARGET_CHAT_ID") = true ∧
  truthy (Runtime.environ_ghost !! "MATERIAL_TEXT") = true ∧
  truthy (Runtime.environ_ghost !! "MATERIAL_FILE_PATH") = true ∧
  load_config Runtime.int_decimal (Runtime.expanduser_with Runtime.homes)
    Runtime.environ_ghost ∅ =
    Raise (RuntimeError "Could not determine home directory.").
Proof. split_and!; vm_compute; reflexivity. Qed.

(** C10: an empty setting is treated as an unset one.  An unset or empty
    credential raises the error of the credential; with a credential, an
    unset or empty target raises the error of the target; with both, a
    material text that is unset or empty together with a material file that
    is unset or empty raises the error of the material. *)
Theorem empty_setting_is_absent (py_int : string → option Z)
    (expanduser : string → result path) (environ dotenv : gmap string string) :
  let env := load_dotenv environ dotenv in
  let absent (v : option string) := v = None ∨ v = Some "" in
  (absent (env !! "TELEGRAM_BOT_TOKEN") →
     load_config py_int expanduser environ dotenv = Raise (RuntimeError msg_token)) ∧
  (truthy (env !! "TELEGRAM_BOT_TOKEN") = true →
   absent (env !! "TARGET_CHAT_ID") →
     load_config py_int expanduser environ dotenv = Raise (RuntimeError msg_target)) ∧
  (truthy (env !! "TELEGRAM_BOT_TOKEN") = true →
   truthy (env !! "TARGET_CHAT_ID") = true →
   absent (env !! "MATERIAL_TEXT") →
   absent (env !! "MATERIAL_FILE_PATH") →
     load_config py_int expanduser environ dotenv = Raise (RuntimeError msg_material)).
Proof.
  simpl. split_and!.
  - intros H. apply load_config_no_token, truthy_false, H.
  - intros H1 H2. apply load_config_no_target; [exact H1|]. apply truthy_false, H2.
  - intros H1 H2 H3 H4. apply load_config_no_material; try assumption;
      apply truthy_false; assumption.
Qed.

(** An empty credential in the process environment, which the [.env] file
    does not override; an empty target; an empty text and no file. *)
Lemma empty_setting_is_absent_witness :
  load_config Runtime.int_decimal (Runtime.expanduser_with Runtime.homes)
    {[ "TELEGRAM_BOT_TOKEN" := "" ]} Runtime.dotenv_example =
    Raise (RuntimeError msg_token) ∧
  load_config Runtime.int_decimal (Runtime.expanduser_with Runtime.homes)
    {[ "TARGET_CHAT_ID" := "" ]} Runtime.dotenv_example =
    Raise (RuntimeError msg_target) ∧
  load_config Runtime.int_decimal (Runtime.expanduser_with Runtime.homes)
    {[ "MATERIAL_TEXT" := "" ]} Runtime.dotenv_example =
    Raise (RuntimeError msg_material).
Proof.
  split_and!.
  - apply (empty_setting_is_absent Runtime.int_decimal
             (Runtime.expanduser_with Runtime.homes)
             {[ "TELEGRAM_BOT_TOKEN" := "" ]} Runtime.dotenv_example).
    right. vm_compute. reflexivity.
  - apply (empty_setting_is_absent Runtime.int_decimal
             (Runtime.expanduser_with Runtime.homes)
             {[ "TARGET_CHAT_ID" := "" ]} Runtime.dotenv_example).
    + vm_compute. reflexivity.
    + right. vm_compute. reflexivity.
  - apply (empty_setting_is_absent Runtime.int_decimal
             (Runtime.expanduser_with Runtime.homes)
             {[ "MATERIAL_TEXT" := "" ]} Runtime.dotenv_example).
    + vm_compute. reflexivity.
    + vm_compute. reflexivity.
    + right. vm_compute. reflexivity.
    + left. vm_compute. reflexivity.
Defined.

(** * Further properties of the handler *)

(** Closes the goals about the members of an explicit list of calls or
    events. *)
Ltac members :=
  unfold prompt_reply, check_failed_reply in *;
  repeat match goal with
    | H : _ ∈ _ :: _ |- _ => apply elem_of_cons in H as [H | H]
    | H : _ ∈ [] |- _ => apply elem_of_nil in H; destruct H
    end;
  simplify_eq.

(** X1: every send of a request, on every path, is addressed to the user
    who made the request. *)
Theorem sends_go_to_the_requester (w : world) (user_id : Z) (config : Config)
    (c : send_call) :
  c ∈ calls (run w user_id config).2 → recipient c = user_id.
Proof.
  revert c. request_paths w user_id config; simpl; intros c Hc; members;
    reflexivity.
Qed.

Lemma sends_go_to_the_requester_witness :
  recipient (send_message 1 "Thanks!" None) = 1.
Proof.
  apply (sends_go_to_the_requester Examples.world_member 1 Examples.config_text).
  apply list_elem_of_singleton. reflexivity.
Defined.

(** X2: a document is sent only to a user whose status is authorized, and
    only the configured file, found and opened, under its own name and with
    the material text as caption; it is the first send of the request and no
    request sends two documents. *)
Theorem document_only_for_subscribers (w : world) (user_id : Z) (config : Config)
    (c : send_call) :
  c ∈ calls (run w user_id config).2 →
  is_document c = true →
  (∃ status p,
     get_chat_member w (target_chat_id config) user_id = Ok status ∧
     status ∈ authorized ∧
     material_file_path config = Some p ∧
     path_exists w p = Ok true ∧
     path_open w p = Ok tt ∧
     c = send_document user_id p (name p) (or_None (material_text config))) ∧
  head (calls (run w user_id config).2) = Some c ∧
  length (filter (λ c', is_document c' = true) (calls (run w user_id config).2)) = 1%nat.
Proof.
  revert c. request_paths w user_id config; simpl; intros c Hc Hdoc; members;
    try discriminate Hdoc.
  all: split_and!; try reflexivity.
  all: exists status, p.
  all: split_and!; try assumption; try reflexivity.
  all: apply is_subscribed_authorized; assumption.
Qed.

Lemma document_only_for_subscribers_witness :
  ∃ status,
    get_chat_member Examples.world_owner (target_chat_id Examples.config_file) 5 =
      Ok status ∧
    status ∈ authorized.
Proof.
  destruct (document_only_for_subscribers Examples.world_owner 5 Examples.config_file
              (send_document 5 Examples.material_pdf "material.pdf" (Some "Thanks!")))
    as ((status & p & Hq & Hin & _) & _).
  - apply list_elem_of_singleton. reflexivity.
  - reflexivity.
  - exists status. split; assumption.
Defined.

(** X3: a send that the transport accepts is the last thing a request does:
    no send and no log record follows it, and the handler returns
    normally. *)
Theorem accepted_send_ends_request (w : world) (user_id : Z) (config : Config)
    (c : send_call) :
  Sent c (Ok tt) ∈ (run w user_id config).2 →
  last (run w user_id config).2 = Some (Sent c (Ok tt)) ∧
  (run w user_id config).1 = Ok tt.
Proof.
  revert c. request_paths w user_id config; simpl; intros c Hc; members;
    split; reflexivity.
Qed.

Lemma accepted_send_ends_request_witness :
  last (run Examples.world_member_text_rejected 1 Examples.config_text).2 =
    Some (Sent (check_failed_reply 1 Examples.config_text) (Ok tt)).
Proof.
  apply (accepted_send_ends_request Examples.world_member_text_rejected 1
           Examples.config_text).
  simpl. rewrite !elem_of_cons. right. right. right. left. reflexivity.
Defined.

(** X4: a request logs at most one warning; a request without a warning
    returns normally; and a warning is always the last record of the trace
    but one, followed only by the send of the reply of the outer handler,
    whose answer is the answer of the request, nothing having been delivered
    before it. *)
Theorem warning_discipline (w : world) (user_id : Z) (config : Config) :
  let r := (run w user_id config).1 in
  let tr := (run w user_id config).2 in
  (length (warnings tr) ≤ 1)%nat ∧
  (warnings tr = [] → r = Ok tt) ∧
  (∀ e, e ∈ warnings tr →
     ∃ tr0, tr = tr0 ++ [Logged (LogWarning user_id e);
                         Sent (check_failed_reply user_id config) r] ∧
            warnings tr0 = [] ∧ delivered tr0 = []).
Proof.
  request_paths w user_id config; simpl.
  all: split_and!; [lia | try discriminate; try reflexivity | intros e' He'; members].
  all: match goal with
       | |- ∃ tr0, ?l = _ ∧ _ => exists (take (length l - 2) l)
       end; simpl; split_and!; reflexivity.
Qed.

(** Two requests that consist of the same single send, under the same
    transport. *)
Lemma run_single_send_same (w w' : world) (user_id : Z) (config : Config)
    (status : string) (c : send_call) :
  (∀ n c', transport_send w n c' = transport_send w' n c') →
  single_send w user_id config status c →
  single_send w' user_id config status c →
  run w user_id config = run w' user_id config.
Proof.
  intros Hs Hone Hone'.
  destruct (transport_send w 0 c) as [[]|e] eqn:Hc.
  - rewrite (run_single_send_ok w user_id config status c Hone Hc).
    rewrite Hs in Hc.
    rewrite (run_single_send_ok w' user_id config status c Hone' Hc).
    reflexivity.
  - rewrite (run_single_send_rejected w user_id config status c e Hone Hc).
    rewrite Hs in Hc.
    rewrite (run_single_send_rejected w' user_id config status c e Hone' Hc).
    rewrite Hs. reflexivity.
Qed.

(** X5: a request of a user who is not authorized, or whose membership
    query fails, or under a configuration without a material file, does not
    touch the file system: two worlds with the same transport give the same
    request. *)
Theorem file_system_untouched (w w' : world) (user_id : Z) (config : Config) :
  same_transport w w' →
  not_authorized_outcome (get_chat_member w (target_chat_id config) user_id) ∨
    material_file_path config = None →
  run w user_id config = run w' user_id config.
Proof.
  intros [Hq Hs] Hcase.
  destruct (get_chat_member w (target_chat_id config) user_id) as [status|e] eqn:Hw.
  - assert (get_chat_member w' (target_chat_id config) user_id = Ok status) as Hw'
      by (rewrite <- Hq; exact Hw).
    destruct (is_subscribed status) eqn:Hsub.
    + destruct Hcase as [Hout | Hnone].
      { apply not_subscribed_unauthorized in Hout. congruence. }
      apply (run_single_send_same w w' user_id config status
               (send_message user_id
                  (py_or (material_text config) text_default_material) None) Hs).
      * apply text_single_send; try assumption.
        unfold text_route. rewrite Hnone. exact I.
      * apply text_single_send; try assumption.
        unfold text_route. rewrite Hnone. exact I.
    + apply (run_single_send_same w w' user_id config status
               (prompt_reply user_id config) Hs);
        apply not_subscribed_single_send; assumption.
  - rewrite (run_query_failed w user_id config e Hw).
    rewrite Hq in Hw. rewrite (run_query_failed w' user_id config e Hw).
    rewrite Hs. reflexivity.
Qed.

Lemma file_system_untouched_witness :
  run Examples.world_left 2 Examples.config_file =
    run Examples.world_left_no_disk 2 Examples.config_file.
Proof.
  apply file_system_untouched.
  - split; reflexivity.
  - left. apply not_subscribed_unauthorized. reflexivity.
Defined.

(** X6: a message with a parse mode is sent only as the prompt of the
    not-subscribed branch, and only when the membership query answered with
    a status that is not authorized: a subscriber is never asked to
    subscribe, and neither the material text nor the reply of the outer
    handler is sent with a parse mode. *)
Theorem prompt_only_for_non_subscribers (w : world) (user_id : Z) (config : Config)
    (chat_id : Z) (text : string) (mode : ParseMode) :
  send_message chat_id text (Some mode) ∈ calls (run w user_id config).2 →
  send_message chat_id text (Some mode) = prompt_reply user_id config ∧
  ∃ status,
    get_chat_member w (target_chat_id config) user_id = Ok status ∧
    status ∉ authorized.
Proof.
  request_paths w user_id config; simpl; intros Hc; members.
  all: split; [reflexivity|].
  all: exists status; split; [reflexivity|].
  all: apply not_subscribed_unauthorized; assumption.
Qed.

Lemma prompt_only_for_non_subscribers_witness :
  ∃ status,
    get_chat_member Examples.world_left (target_chat_id Examples.config_text) 2 =
      Ok status ∧
    status ∉ authorized.
Proof.
  destruct (prompt_only_for_non_subscribers Examples.world_left 2 Examples.config_text
              2 (text_not_subscribed +:+ newline +:+ "https://t.me/x") HTML)
    as [_ Hstatus].
  - apply list_elem_of_singleton. reflexivity.
  - exact Hstatus.
Defined.

(** X7: an exception record is logged only in the file branch of an
    authorized user, for the exception that opening the file or sending the
    document raised, and it is immediately followed by the send of the
    notice of the failure. *)
Theorem file_failure_logged_then_answered (w : world) (user_id : Z) (config : Config)
    (e : exn) :
  Logged (LogException e) ∈ (run w user_id config).2 →
  (∃ status p,
     get_chat_member w (target_chat_id config) user_id = Ok status ∧
     status ∈ authorized ∧
     material_file_path config = Some p ∧
     path_exists w p = Ok true ∧
     (path_open w p = Raise e ∨
      (path_open w p = Ok tt ∧
       transport_send w 0
         (send_document user_id p (name p) (or_None (material_text config))) =
         Raise e))) ∧
  ∃ tr1 tr2 answer,
    (run w user_id config).2 =
      tr1 ++ [Logged (LogException e);
              Sent (send_message user_id text_file_error None) answer] ++ tr2.
Proof.
  request_paths w user_id config; simpl; intros Hc; members.
  all: split;
    [ exists status, p; split_and!; try assumption; try reflexivity;
      [ apply is_subscribed_authorized; assumption | auto ]
    | first [ eexists [_], _, _; reflexivity
            | eexists [_; _], _, _; reflexivity ] ].
Qed.

Lemma file_failure_logged_then_answered_witness :
  path_open Examples.world_member_unreadable_blocked Examples.material_pdf =
    Raise Examples.permission_denied ∧
  run Examples.world_member_unreadable_blocked 1 Examples.config_file =
    (Ok tt,
     [Logged (LogDebug 1 "member" (ChatInt (-100123)));
      Logged (LogException Examples.permission_denied);
      Sent (send_message 1 text_file_error None) (Raise Examples.timed_out);
      Logged (LogWarning 1 Examples.timed_out);
      Sent (check_failed_reply 1 Examples.config_file) (Ok tt)]).
Proof.
  destruct (file_failure_logged_then_answered Examples.world_member_unreadable_blocked
              1 Examples.config_file Examples.permission_denied) as [_ _].
  - simpl. rewrite !elem_of_cons. right. left. reflexivity.
  - split; reflexivity.
Defined.

(** * Further properties of the configuration *)


(** What a returned configuration says about the environment. *)
Lemma load_config_ok_inv (py_int : string → option Z) (expanduser : string → result path)
    (environ dotenv : gmap string string) (config : Config) :
  load_config py_int expanduser environ dotenv = Ok config →
  let env := load_dotenv environ dotenv in
  ∃ tok tgt,
    env !! "TELEGRAM_BOT_TOKEN" = Some tok ∧ truthy_str tok = true ∧
    env !! "TARGET_CHAT_ID" = Some tgt ∧ truthy_str tgt = true ∧
    token config = tok ∧
    target_chat_id config =
      match py_int tgt with Some z => ChatInt z | None => ChatStr tgt end ∧
    material_text config = env !! "MATERIAL_TEXT" ∧
    channel_invite_link config = env !! "CHANNEL_INVITE_LINK" ∧
    match material_file_path config with
    | Some p => ∃ f, env !! "MATERIAL_FILE_PATH" = Some f ∧ truthy_str f = true ∧
                     expanduser f = Ok p
    | None => truthy (env !! "MATERIAL_FILE_PATH") = false ∧
              truthy (env !! "MATERIAL_TEXT") = true
    end.
Proof.
  simpl.
  destruct (truthy (load_dotenv environ dotenv !! "TELEGRAM_BOT_TOKEN")) eqn:H1.
  2:{ rewrite load_config_no_token by exact H1. discriminate. }
  destruct (truthy (load_dotenv environ dotenv !! "TARGET_CHAT_ID")) eqn:H2.
  2:{ rewrite load_config_no_target by assumption. discriminate. }
  destruct (truthy (load_dotenv environ dotenv !! "MATERIAL_TEXT")) eqn:H3;
    destruct (truthy (load_dotenv environ dotenv !! "MATERIAL_FILE_PATH")) eqn:H4.
  4:{ rewrite load_config_no_material by assumption. discriminate. }
  all: rewrite load_config_checked by (try assumption; rewrite H3, H4; reflexivity).
  all: rewrite H4.
  all: destruct (load_dotenv environ dotenv !! "TELEGRAM_BOT_TOKEN") as [tok|];
    [|discriminate H1].
  all: destruct (load_dotenv environ dotenv !! "TARGET_CHAT_ID") as [tgt|];
    [|discriminate H2].
  all: try (destruct (load_dotenv environ dotenv !! "MATERIAL_FILE_PATH") as [f|] eqn:Hf;
            [|discriminate H4];
            destruct (expanduser (default "" (Some f))) as [p|e] eqn:Hp;
            simpl; [|discriminate]).
  all: intros [= <-]; exists tok, tgt; simpl.
  all: split_and!; try reflexivity; try assumption.
  all: exists f; split_and!; try reflexivity; assumption.
Qed.

(** X8: the configuration that [load_config] returns holds the settings
    as the merged environment has them, unchanged: the credential, the
    material text and the invite link, with nothing trimmed or defaulted. *)
Theorem settings_pass_through (py_int : string → option Z)
    (expanduser : string → result path) (environ dotenv : gmap string string)
    (config : Config) :
  load_config py_int expanduser environ dotenv = Ok config →
  let env := load_dotenv environ dotenv in
  env !! "TELEGRAM_BOT_TOKEN" = Some (token config) ∧
  env !! "MATERIAL_TEXT" = material_text config ∧
  env !! "CHANNEL_INVITE_LINK" = channel_invite_link config.
Proof.
  intros Hok. apply load_config_ok_inv in Hok. simpl in *.
  destruct Hok as (tok & tgt & Htok & _ & _ & _ & <- & _ & -> & -> & _).
  auto.
Qed.

Lemma settings_pass_through_witness :
  load_dotenv ∅ Runtime.dotenv_example !! "CHANNEL_INVITE_LINK" =
    Some "https://t.me/your_channel".
Proof.
  destruct (settings_pass_through Runtime.int_decimal
              (Runtime.expanduser_with Runtime.homes) ∅ Runtime.dotenv_example _
              load_docstring_example) as (_ & _ & Hlink).
  exact Hlink.
Defined.

(** X9: the target of a returned configuration is the integer that
    [TARGET_CHAT_ID] parses to, and the setting itself, unchanged, when it
    does not parse as one. *)
Theorem target_is_integer_or_username (py_int : string → option Z)
    (expanduser : string → result path) (environ dotenv : gmap string string)
    (config : Config) :
  load_config py_int expanduser environ dotenv = Ok config →
  ∃ setting,
    load_dotenv environ dotenv !! "TARGET_CHAT_ID" = Some setting ∧
    (∀ z, py_int setting = Some z → target_chat_id config = ChatInt z) ∧
    (py_int setting = None → target_chat_id config = ChatStr setting).
Proof.
  intros Hok. apply load_config_ok_inv in Hok. simpl in *.
  destruct Hok as (tok & tgt & _ & _ & Htgt & _ & _ & Htarget & _).
  exists tgt. split; [exact Htgt|]. rewrite Htarget.
  split; [intros z -> | intros ->]; reflexivity.
Qed.

Lemma target_is_integer_or_username_witness :
  ∃ config,
    load_config Runtime.int_decimal (Runtime.expanduser_with Runtime.homes)
      {[ "TARGET_CHAT_ID" := "@your_channel" ]} Runtime.dotenv_example = Ok config ∧
    target_chat_id config = ChatStr "@your_channel".
Proof.
  assert (load_config Runtime.int_decimal (Runtime.expanduser_with Runtime.homes)
            {[ "TARGET_CHAT_ID" := "@your_channel" ]} Runtime.dotenv_example =
          Ok {| token := "123456:ABCDEF";
                target_chat_id := ChatStr "@your_channel";
                material_text := Some "Thanks for subscribing! Here is your material";
                material_file_path := None;
                channel_invite_link := Some "https://t.me/your_channel" |}) as Hok
    by (vm_compute; reflexivity).
  eexists. split; [exact Hok|].
  destruct (target_is_integer_or_username _ _ _ _ _ Hok)
    as (setting & Hset & _ & Hname).
  vm_compute in Hset. injection Hset as <-. apply Hname. reflexivity.
Defined.

(** X10: the material file of a returned configuration is the expansion
    of a non-empty [MATERIAL_FILE_PATH]; a configuration without a file
    comes from a [MATERIAL_FILE_PATH] that is unset or empty, and then the
    material text is set and not empty. *)
Theorem file_is_expanded_setting (py_int : string → option Z)
    (expanduser : string → result path) (environ dotenv : gmap string string)
    (config : Config) :
  load_config py_int expanduser environ dotenv = Ok config →
  let env := load_dotenv environ dotenv in
  (∀ p, material_file_path config = Some p →
        ∃ setting, env !! "MATERIAL_FILE_PATH" = Some setting ∧
                   truthy_str setting = true ∧ expanduser setting = Ok p) ∧
  (material_file_path config = None →
        truthy (env !! "MATERIAL_FILE_PATH") = false ∧
        truthy (material_text config) = true).
Proof.
  intros Hok. apply load_config_ok_inv in Hok. simpl in *.
  destruct Hok as (tok & tgt & _ & _ & _ & _ & _ & _ & Htext & _ & Hfile).
  rewrite Htext. destruct (material_file_path config) as [p|].
  - split; [intros p' [= <-]; exact Hfile | discriminate].
  - split; [discriminate | intros _; exact Hfile].
Qed.

Lemma file_is_expanded_setting_witness :
  truthy (load_dotenv ∅ Runtime.dotenv_example !! "MATERIAL_FILE_PATH") = false.
Proof.
  destruct (file_is_expanded_setting Runtime.int_decimal
              (Runtime.expanduser_with Runtime.homes) ∅ Runtime.dotenv_example _
              load_docstring_example) as (_ & Hnone).
  apply Hnone. reflexivity.
Defined.

(** X11: every exception of [load_config] is the [RuntimeError] of the
    first check that fails, in the order credential, target, material, or,
    when the three checks pass, the exception that the expansion of the
    material file path raised; the conversion of the target never raises. *)
Theorem load_config_raises_in_order (py_int : string → option Z)
    (expanduser : string → result path) (environ dotenv : gmap string string)
    (e : exn) :
  load_config py_int expanduser environ dotenv = Raise e →
  let env := load_dotenv environ dotenv in
  (e = RuntimeError msg_token ∧ truthy (env !! "TELEGRAM_BOT_TOKEN") = false) ∨
  (e = RuntimeError msg_target ∧ truthy (env !! "TELEGRAM_BOT_TOKEN") = true ∧
     truthy (env !! "TARGET_CHAT_ID") = false) ∨
  (e = RuntimeError msg_material ∧ truthy (env !! "TELEGRAM_BOT_TOKEN") = true ∧
     truthy (env !! "TARGET_CHAT_ID") = true ∧
     truthy (env !! "MATERIAL_TEXT") = false ∧
     truthy (env !! "MATERIAL_FILE_PATH") = false) ∨
  (truthy (env !! "TELEGRAM_BOT_TOKEN") = true ∧
     truthy (env !! "TARGET_CHAT_ID") = true ∧
     ∃ setting, env !! "MATERIAL_FILE_PATH" = Some setting ∧
                truthy_str setting = true ∧ expanduser setting = Raise e).
Proof.
  simpl.
  destruct (truthy (load_dotenv environ dotenv !! "TELEGRAM_BOT_TOKEN")) eqn:H1.
  2:{ rewrite load_config_no_token by exact H1. intros [= <-]. auto. }
  destruct (truthy (load_dotenv environ dotenv !! "TARGET_CHAT_ID")) eqn:H2.
  2:{ rewrite load_config_no_target by assumption. intros [= <-]. auto. }
  destruct (truthy (load_dotenv environ dotenv !! "MATERIAL_TEXT")) eqn:H3;
    destruct (truthy (load_dotenv environ dotenv !! "MATERIAL_FILE_PATH")) eqn:H4.
  4:{ rewrite load_config_no_material by assumption. intros [= <-]. auto 10. }
  all: rewrite load_config_checked by (try assumption; rewrite H3, H4; reflexivity).
  all: rewrite H4; simpl; try discriminate.
  all: destruct (load_dotenv environ dotenv !! "MATERIAL_FILE_PATH") as [f|] eqn:Hf;
    [|discriminate H4].
  all: simpl; destruct (expanduser f) as [p|e'] eqn:Hp; simpl; [discriminate|].
  all: intros [= <-]; right; right; right; split_and!; try reflexivity.
  all: exists f; auto.
Qed.

Lemma load_config_raises_in_order_witness :
  ∃ setting,
    load_dotenv Runtime.environ_ghost ∅ !! "MATERIAL_FILE_PATH" = Some setting ∧
    Runtime.expanduser_with Runtime.homes setting =
      Raise (RuntimeError "Could not determine home directory.").
Proof.
  assert (load_config Runtime.int_decimal (Runtime.expanduser_with Runtime.homes)
            Runtime.environ_ghost ∅ =
          Raise (RuntimeError "Could not determine home directory.")) as Hraise
    by (vm_compute; reflexivity).
  destruct (load_config_raises_in_order _ _ _ _ _ Hraise)
    as [[_ H] | [(_ & _ & H) | [(_ & _ & _ & H & _) | (_ & _ & setting & Hs & _ & He)]]].
  - vm_compute in H. discriminate H.
  - vm_compute in H. discriminate H.
  - vm_compute in H. discriminate H.
  - exists setting. split; assumption.
Defined.






(** * From the environment to the reply *)

(** X15: under a configuration that [load_config] returned without a
    material file, an authorized user is sent the [MATERIAL_TEXT] of the
    environment itself, never the placeholder: it is the first send of the
    request and, when the transport accepts it, the only one. *)
Theorem loaded_text_reaches_subscriber (py_int : string → option Z)
    (expanduser : string → result path) (environ dotenv : gmap string string)
    (config : Config) (w : world) (user_id : Z) (status : string) :
  load_config py_int expanduser environ dotenv = Ok config →
  material_file_path config = None →
  get_chat_member w (target_chat_id config) user_id = Ok status →
  status ∈ authorized →
  ∃ text,
    load_dotenv environ dotenv !! "MATERIAL_TEXT" = Some text ∧
    truthy_str text = true ∧
    head (calls (run w user_id config).2) = Some (send_message user_id text None) ∧
    (transport_send w 0 (send_message user_id text None) = Ok tt →
       run w user_id config =
         (Ok tt, [Logged (LogDebug user_id status (target_chat_id config));
                  Sent (send_message user_id text None) (Ok tt)])).
Proof.
  intros Hok Hnone Hq Hin. apply is_subscribed_authorized in Hin as Hsub.
  apply load_config_ok_inv in Hok. simpl in Hok.
  destruct Hok as (tok & tgt & _ & _ & _ & _ & _ & _ & Htext & _ & Hfile).
  rewrite Hnone in Hfile. destruct Hfile as [_ Htruthy]. rewrite <- Htext in *.
  destruct (material_text config) as [text|] eqn:Hmt; [|discriminate Htruthy].
  simpl in Htruthy.
  assert (single_send w user_id config status (send_message user_id text None))
    as Hone.
  { pose proof (text_single_send w user_id config status Hq Hsub) as Hone.
    rewrite Hmt in Hone. simpl in Hone. rewrite Htruthy in Hone.
    apply Hone. unfold text_route. rewrite Hnone. exact I. }
  exists text. split_and!; try reflexivity; try assumption.
  - destruct (transport_send w 0 (send_message user_id text None)) as [[]|e] eqn:Hs.
    + erewrite run_single_send_ok by eassumption. reflexivity.
    + erewrite run_single_send_rejected by eassumption. reflexivity.
  - intros Hs. eapply run_single_send_ok; eassumption.
Qed.

Lemma loaded_text_reaches_subscriber_witness :
  ∃ config,
    load_config Runtime.int_decimal (Runtime.expanduser_with Runtime.homes)
      ∅ Runtime.dotenv_example = Ok config ∧
    run Examples.world_member 1 config =
      (Ok tt,
       [Logged (LogDebug 1 "member" (ChatInt (-1001234567890)));
        Sent (send_message 1 "Thanks for subscribing! Here is your material" None)
             (Ok tt)]).
Proof.
  eexists. split; [exact load_docstring_example|].
  destruct (loaded_text_reaches_subscriber _ _ _ _ _ Examples.world_member 1 "member"
              load_docstring_example eq_refl eq_refl)
    as (text & Htext & _ & _ & Hrun).
  - apply is_subscribed_authorized. reflexivity.
  - vm_compute in Htext. injection Htext as <-. apply Hrun. reflexivity.
Defined.

(** X16: under a configuration that [load_config] returned, a user whose
    status is not authorized is first sent the prompt, followed by a newline
    and the [CHANNEL_INVITE_LINK] of the environment itself when that is set
    and not empty, and the prompt alone otherwise. *)
Theorem loaded_link_reaches_non_subscriber (py_int : string → option Z)
    (expanduser : string → result path) (environ dotenv : gmap string string)
    (config : Config) (w : world) (user_id : Z) (status : string) :
  load_config py_int expanduser environ dotenv = Ok config →
  get_chat_member w (target_chat_id config) user_id = Ok status →
  status ∉ authorized →
  let setting := load_dotenv environ dotenv !! "CHANNEL_INVITE_LINK" in
  (∀ link, setting = Some link → truthy_str link = true →
     head (calls (run w user_id config).2) =
       Some (send_message user_id (text_not_subscribed +:+ newline +:+ link)
               (Some HTML))) ∧
  (truthy setting = false →
     head (calls (run w user_id config).2) =
       Some (send_message user_id text_not_subscribed (Some HTML))).
Proof.
  intros Hok Hq Hout. apply not_subscribed_unauthorized in Hout as Hsub.
  apply load_config_ok_inv in Hok. simpl in Hok.
  destruct Hok as (tok & tgt & _ & _ & _ & _ & _ & _ & _ & Hlink & _).
  pose proof (not_subscribed_single_send w user_id config status Hq Hsub) as Hone.
  assert (head (calls (run w user_id config).2) = Some (prompt_reply user_id config))
    as Hhead.
  { destruct (transport_send w 0 (prompt_reply user_id config)) as [[]|e] eqn:Hs.
    - erewrite run_single_send_ok by eassumption. reflexivity.
    - erewrite run_single_send_rejected by eassumption. reflexivity. }
  simpl. rewrite Hhead. unfold prompt_reply. rewrite Hlink. split.
  - intros link -> Ht. rewrite with_invite_link_truthy by exact Ht. reflexivity.
  - intros Hf. rewrite with_invite_link_falsy by exact Hf. reflexivity.
Qed.

Lemma loaded_link_reaches_non_subscriber_witness :
  ∃ config,
    load_config Runtime.int_decimal (Runtime.expanduser_with Runtime.homes)
      ∅ Runtime.dotenv_example = Ok config ∧
    head (calls (run Examples.world_left 2 config).2) =
      Some (send_message 2
              (text_not_subscribed +:+ newline +:+ "https://t.me/your_channel")
              (Some HTML)).
Proof.
  eexists. split; [exact load_docstring_example|].
  destruct (loaded_link_reaches_non_subscriber _ _ _ _ _ Examples.world_left 2 "left"
              load_docstring_example eq_refl) as [Hlink _].
  - apply not_subscribed_unauthorized. reflexivity.
  - apply Hlink; vm_compute; reflexivity.
Defined.
